(** * OpenCTI MCP server: the one-shot HTTP transport adapter

    A shallow embedding of [HttpOnceTransport] (start / send / sendError /
    close), of the [/mcp] route of [OpenCTIHTTPServer] and of its tool
    dispatch glue ([CallToolRequestSchema] handler, [handleError]), followed
    by the properties the specification states about them.

    JavaScript values are an inductive type, an object being an association
    list read at its first binding.  Code that mutates [this] and may throw
    is written in a small state-and-exception monad in which a thrown
    exception keeps the state reached so far, as in JavaScript. *)

From Stdlib Require Import String ZArith List Bool Lia.
Import ListNotations.
Local Open Scope string_scope.
Local Open Scope Z_scope.

(* ===================================================================== *)
(** ** JavaScript values *)
(* ===================================================================== *)

Module Js.

#[local] Set Warnings "-register-all".

(** Numbers are restricted to integers: ids, status codes and error codes
    are all the code computes with.  [VBigInt] stands for the values that
    [JSON.stringify] refuses. *)
Inductive value : Type :=
| VUndefined
| VNull
| VBool (b : bool)
| VNum (n : Z)
| VBigInt (n : Z)
| VStr (s : string)
| VArr (elems : list value)
| VObj (props : list (string * value)).

(** What the code throws and catches. *)
Inductive exn : Type :=
| JsError (name message : string)                 (* new Error(..), TypeError *)
| McpError (code : Z) (message : string)          (* new McpError(code, ..) *)
| AxiosError (response_data : value) (message : string).

(** [!!v] *)
Definition truthy (v : value) : bool :=
  match v with
  | VUndefined | VNull => false
  | VBool b => b
  | VNum n | VBigInt n => negb (n =? 0)
  | VStr s => negb (s =? EmptyString)%string
  | VArr _ | VObj _ => true
  end.

(** [typeof v === 'object'] (true of [null]). *)
Definition typeof_object (v : value) : bool :=
  match v with
  | VNull | VArr _ | VObj _ => true
  | _ => false
  end.

Definition is_undefined (v : value) : bool :=
  match v with VUndefined => true | _ => false end.

Definition is_nullish (v : value) : bool :=
  match v with VUndefined | VNull => true | _ => false end.

(** [v === 'literal'] *)
Definition str_eq (v : value) (lit : string) : bool :=
  match v with VStr s => (s =? lit)%string | _ => false end.

Fixpoint assoc (props : list (string * value)) (k : string) : option value :=
  match props with
  | [] => None
  | (k', v) :: rest => if (k' =? k)%string then Some v else assoc rest k
  end.

(** [a || null] *)
Definition or_null (v : value) : value := if truthy v then v else VNull.

(** [a || {}] *)
Definition or_empty (v : value) : value := if truthy v then v else VObj [].

(** Whether [JSON.stringify v] returns (it throws a TypeError on a BigInt,
    wherever it sits). *)
Fixpoint serializable (v : value) : bool :=
  match v with
  | VBigInt _ => false
  | VArr elems => forallb serializable elems
  | VObj props => forallb (fun '(_, x) => serializable x) props
  | _ => true
  end.

(** *** Completions and the state-and-exception monad *)

Inductive completion (A : Type) : Type :=
| Normal (a : A)
| Throw (e : exn).
Arguments Normal {A} a.
Arguments Throw {A} e.

Definition js (S A : Type) : Type := S -> completion A * S.

Definition ret {S A} (a : A) : js S A := fun s => (Normal a, s).
Definition throw {S A} (e : exn) : js S A := fun s => (Throw e, s).

Definition bind {S A B} (m : js S A) (k : A -> js S B) : js S B :=
  fun s =>
    match m s with
    | (Normal a, s') => k a s'
    | (Throw e, s') => (Throw e, s')
    end.

Definition get {S} : js S S := fun s => (Normal s, s).
Definition modify {S} (f : S -> S) : js S unit := fun s => (Normal tt, f s).

(** [try { body } catch (err) { handler err }] *)
Definition try_catch {S A} (body : js S A) (handler : exn -> js S A) : js S A :=
  fun s =>
    match body s with
    | (Normal a, s') => (Normal a, s')
    | (Throw e, s') => handler e s'
    end.

(** [try { body } finally { fin }]: [fin] runs on both exits; an exception
    of [fin] replaces the completion of [body]. *)
Definition try_finally {S A} (body : js S A) (fin : js S unit) : js S A :=
  fun s =>
    match body s with
    | (c, s') =>
        match fin s' with
        | (Normal _, s'') => (c, s'')
        | (Throw e, s'') => (Throw e, s'')
        end
    end.

(** A call whose result is a promise nobody awaits: a rejection is not
    thrown at the caller. *)
Definition detached {S A} (m : js S A) : js S unit :=
  fun s => (Normal tt, snd (m s)).

(** Run [m] on a component of the state. *)
Definition zoom {S T A} (proj : S -> T) (inj : T -> S -> S) (m : js T A) : js S A :=
  fun s => match m (proj s) with (c, t') => (c, inj t' s) end.

(** [for (const x of xs) body(x)] *)
Fixpoint for_of {S A} (xs : list A) (body : A -> js S unit) : js S unit :=
  match xs with
  | [] => ret tt
  | x :: rest => bind (body x) (fun _ => for_of rest body)
  end.

(** [o.k]: a TypeError on [undefined] and [null]; on an object the first
    binding of [k], else [undefined] (none of the names the code reads is
    on [Object.prototype]); [length] on arrays and strings. *)
Definition member {S} (o : value) (k : string) : js S value :=
  match o with
  | VUndefined | VNull =>
      throw (JsError "TypeError" ("Cannot read properties of null or undefined: " ++ k))
  | VObj props => ret (match assoc props k with Some v => v | None => VUndefined end)
  | VArr elems =>
      ret (if (k =? "length")%string then VNum (Z.of_nat (List.length elems)) else VUndefined)
  | VStr s =>
      ret (if (k =? "length")%string then VNum (Z.of_nat (String.length s)) else VUndefined)
  | _ => ret VUndefined
  end.

(** [o?.k] *)
Definition opt_member {S} (o : value) (k : string) : js S value :=
  if is_nullish o then ret VUndefined else member o k.

(** [k in o]: a TypeError unless [o] is an object or an array. *)
Definition in_op {S} (k : string) (o : value) : js S bool :=
  match o with
  | VObj props => ret (match assoc props k with Some _ => true | None => false end)
  | VArr _ => ret (k =? "length")%string
  | _ => throw (JsError "TypeError" "Cannot use 'in' operator")
  end.

(** [JSON.stringify(v)] evaluated for a log line: only whether it throws
    matters. *)
Definition stringify_for_log {S} (v : value) : js S unit :=
  if serializable v then ret tt
  else throw (JsError "TypeError" "Do not know how to serialize a BigInt").

(** Whether the conversion of [v] to a string returns, in a template
    literal [`${v}`] as in a concatenation ['text' + v].  An object is
    converted by its [toString]; when the object has an own member of that
    name, which is no function (no value here is one), the conversion
    falls back on [valueOf], which gives no primitive either, and throws a
    TypeError.  An array is converted by joining its elements, each
    converted in turn ([null] and [undefined] give the empty text). *)
Fixpoint string_convertible (v : value) : bool :=
  match v with
  | VArr elems => forallb string_convertible elems
  | VObj props => match assoc props "toString" with Some _ => false | None => true end
  | _ => true
  end.

(** [`... ${v} ...`] and ['...' + v] evaluated for a log line: only whether
    the conversion throws matters. *)
Definition to_string_for_log {S} (v : value) : js S unit :=
  if string_convertible v then ret tt
  else throw (JsError "TypeError" "Cannot convert object to primitive value").

End Js.
Import Js.

Declare Scope js_scope.
Delimit Scope js_scope with js.
Notation "x <- m ;; k" := (bind m (fun x => k))
  (at level 61, m at next level, right associativity) : js_scope.
Notation "m ;; k" := (bind m (fun _ => k))
  (at level 61, right associativity) : js_scope.
Local Open Scope js_scope.


(* ===================================================================== *)
(** ** The Express response object *)
(* ===================================================================== *)

Module Express.

(** [wire] is what reached the client: a status and a body, [None] for an
    empty body.  The object belongs to Express, not to the repository; the
    model keeps what the code relies on.  Express and Node set
    [headersSent] with the first write; afterwards [res.json] throws
    (headers cannot be set any more) and [res.end] does nothing.
    [res.json] serializes before it writes, so a value [JSON.stringify]
    refuses leaves the response untouched. *)
Record Response : Type := {
  statusCode : Z;
  headersSent : bool;
  wire : list (Z * option value)
}.

Definition fresh : Response :=
  {| statusCode := 200; headersSent := false; wire := [] |}.

(** [res.status(code)] *)
Definition status (code : Z) : js Response unit :=
  modify (fun r => {| statusCode := code; headersSent := headersSent r; wire := wire r |}).

(** [res.json(body)] *)
Definition json (body : value) : js Response unit :=
  fun r =>
    if negb (serializable body) then
      (Throw (JsError "TypeError" "Do not know how to serialize a BigInt"), r)
    else if headersSent r then
      (Throw (JsError "Error" "Cannot set headers after they are sent to the client"), r)
    else
      (Normal tt, {| statusCode := statusCode r; headersSent := true;
                     wire := wire r ++ [(statusCode r, Some body)] |}).

(** [res.end()] *)
Definition end_ : js Response unit :=
  fun r =>
    if headersSent r then (Normal tt, r)
    else (Normal tt, {| statusCode := statusCode r; headersSent := true;
                        wire := wire r ++ [(statusCode r, None)] |}).

End Express.
Import Express.

(* ===================================================================== *)
(** ** HttpOnceTransport *)
(* ===================================================================== *)

(** The private fields of the class, and a log of what it did to the
    callbacks the session engine assigned to it. *)
Record HttpOnceTransport : Type := {
  inbound : value;
  res : Response;
  responded : bool;
  resolved : nat;          (* calls of responseResolve(): responsePromise is settled iff > 0 *)
  delivered : list value;  (* arguments of onmessage, in order *)
  routed : list exn;       (* arguments of onerror, in order *)
  closed : nat;            (* calls of onclose *)
  warnings : nat           (* calls of console.warn *)
}.

(** [new HttpOnceTransport(inbound, res)] *)
Definition new_HttpOnceTransport (inbound : value) (res : Response) : HttpOnceTransport :=
  {| inbound := inbound; res := res; responded := false; resolved := 0;
     delivered := []; routed := []; closed := 0; warnings := 0 |}.

Definition with_res (r : Response) (t : HttpOnceTransport) : HttpOnceTransport :=
  {| inbound := inbound t; res := r; responded := responded t; resolved := resolved t;
     delivered := delivered t; routed := routed t; closed := closed t;
     warnings := warnings t |}.

(** [this.res.<op>] *)
Definition on_res {A} (m : js Response A) : js HttpOnceTransport A :=
  zoom res with_res m.

(** [this.responded = true] *)
Definition set_responded : js HttpOnceTransport unit :=
  modify (fun t =>
    {| inbound := inbound t; res := res t; responded := true; resolved := resolved t;
       delivered := delivered t; routed := routed t; closed := closed t;
       warnings := warnings t |}).

(** [this.responseResolve()] *)
Definition responseResolve : js HttpOnceTransport unit :=
  modify (fun t =>
    {| inbound := inbound t; res := res t; responded := responded t;
       resolved := S (resolved t);
       delivered := delivered t; routed := routed t; closed := closed t;
       warnings := warnings t |}).

Definition console_warn : js HttpOnceTransport unit :=
  modify (fun t =>
    {| inbound := inbound t; res := res t; responded := responded t; resolved := resolved t;
       delivered := delivered t; routed := routed t; closed := closed t;
       warnings := S (warnings t) |}).

Definition log_delivered (msg : value) : js HttpOnceTransport unit :=
  modify (fun t =>
    {| inbound := inbound t; res := res t; responded := responded t; resolved := resolved t;
       delivered := delivered t ++ [msg]; routed := routed t; closed := closed t;
       warnings := warnings t |}).

Definition log_routed (err : exn) : js HttpOnceTransport unit :=
  modify (fun t =>
    {| inbound := inbound t; res := res t; responded := responded t; resolved := resolved t;
       delivered := delivered t; routed := routed t ++ [err]; closed := closed t;
       warnings := warnings t |}).

Definition log_closed : js HttpOnceTransport unit :=
  modify (fun t =>
    {| inbound := inbound t; res := res t; responded := responded t; resolved := resolved t;
       delivered := delivered t; routed := routed t; closed := S (closed t);
       warnings := warnings t |}).

(** The callbacks.  The session engine reaches the transport through its
    public methods only, so what [onmessage] does is a list of calls of
    [send] and [close], possibly followed by an exception of its own.
    [onerror] and [onclose] are either assigned or not. *)
Inductive call : Type :=
| CallSend (message : value)
| CallClose.

Record reaction : Type := {
  calls : list call;
  raises : option exn
}.

Record callbacks : Type := {
  onmessage : option (value -> reaction);
  onerror : bool;
  onclose : bool
}.

(** The fixed result of [initialize]. *)
Definition initialize_result : value :=
  VObj [("protocolVersion", VStr "2024-11-05");
       ("capabilities",
          VObj [("tools", VObj [("listChanged", VBool false)]);
               ("logging", VObj [])]);
       ("serverInfo",
          VObj [("name", VStr "opencti-server"); ("version", VStr "0.1.0")])].

(** The body of a JSON-RPC error response, as [sendError] and the fallback
    of [send] build it. *)
Definition error_response (id : value) (code : Z) (message : string) : value :=
  VObj [("jsonrpc", VStr "2.0");
       ("id", id);
       ("error", VObj [("code", VNum code); ("message", VStr message)])].

(** [message && message.jsonrpc && message.id !== undefined] *)
Definition is_complete_response {S} (message : value) : js S bool :=
  if truthy message then
    jsonrpc <- member message "jsonrpc" ;;
    if truthy jsonrpc then
      id <- member message "id" ;;
      ret (negb (is_undefined id))
    else ret false
  else ret false.

(** The [try { .. } catch (err) { .. } finally { .. }] statement of [send]. *)
Definition send_try (message : value) : js HttpOnceTransport unit :=
  try_finally
    (try_catch
       (t <- get ;;
        direct <- is_complete_response message ;;
        if direct then
          stringify_for_log message ;;
          on_res (status 200 ;; json message)
        else
          id <- opt_member (inbound t) "id" ;;
          let response :=
            VObj [("jsonrpc", VStr "2.0"); ("id", or_null id); ("result", message)] in
          stringify_for_log response ;;
          on_res (status 200 ;; json response))
       (fun _ =>
          t <- get ;;
          if negb (headersSent (res t)) then
            id <- opt_member (inbound t) "id" ;;
            on_res (status 500 ;; json (error_response (or_null id) (-32603) "Internal error"))
          else ret tt))
    responseResolve.

(** [send(message)] *)
Definition send (message : value) : js HttpOnceTransport unit :=
  t <- get ;;
  if responded t then console_warn
  else
    set_responded ;;
    send_try message.

(** [sendError(code, message, id)] *)
Definition sendError (code : Z) (message : string) (id : value) : js HttpOnceTransport unit :=
  t <- get ;;
  if responded t then ret tt
  else
    set_responded ;;
    on_res (status 200 ;; json (error_response id code message)) ;;
    responseResolve.

(** [close()] *)
Definition close (cb : callbacks) : js HttpOnceTransport unit :=
  t <- get ;;
  (if negb (responded t) && negb (headersSent (res t)) then
     on_res (status 204 ;; end_) ;;
     responseResolve
   else ret tt) ;;
  if onclose cb then log_closed else ret tt.

(** [this.onmessage(msg)]: the engine receives [msg] and calls back. *)
Definition run_call (cb : callbacks) (c : call) : js HttpOnceTransport unit :=
  match c with
  | CallSend message => detached (send message)
  | CallClose => detached (close cb)
  end.

Definition call_onmessage (cb : callbacks) (handler : value -> reaction) (msg : value)
  : js HttpOnceTransport unit :=
  log_delivered msg ;;
  for_of (calls (handler msg)) (run_call cb) ;;
  match raises (handler msg) with
  | Some e => throw e
  | None => ret tt
  end.

(** How the promise returned by [start()] stands when the synchronous part
    of [start] is over: fulfilled, or still waiting on [responsePromise]. *)
Inductive progress : Type :=
| Fulfilled
| Pending.

(** [await this.responsePromise] *)
Definition await_responsePromise : js HttpOnceTransport progress :=
  t <- get ;;
  ret (match resolved t with O => Pending | S _ => Fulfilled end).

(** [start()] *)
Definition start (cb : callbacks) : js HttpOnceTransport progress :=
  try_catch
    (t <- get ;;
     if negb (truthy (inbound t)) || negb (typeof_object (inbound t)) then
       throw (JsError "Error" "Invalid JSON-RPC message structure")
     else
       has_id <- in_op "id" (inbound t) ;;
       let isNotification := negb has_id in
       method <- member (inbound t) "method" ;;
       if str_eq method "initialize" then
         params <- member (inbound t) "params" ;;
         clientInfo <- opt_member params "clientInfo" ;;
         stringify_for_log clientInfo ;;
         id <- member (inbound t) "id" ;;
         let response :=
           VObj [("jsonrpc", VStr "2.0"); ("id", id); ("result", initialize_result)] in
         send response ;;
         ret Fulfilled
       else if str_eq method "notifications/initialized" then
         set_responded ;;
         on_res (status 204 ;; end_) ;;
         responseResolve ;;
         ret Fulfilled
       else if str_eq method "ping" then
         id <- member (inbound t) "id" ;;
         let response :=
           VObj [("jsonrpc", VStr "2.0"); ("id", id); ("result", VObj [])] in
         send response ;;
         ret Fulfilled
       else
         jsonrpc <- member (inbound t) "jsonrpc" ;;
         if negb isNotification && (negb (truthy jsonrpc) || negb (truthy method)) then
           sendError (-32600) "Invalid Request" VNull ;;
           ret Fulfilled
         else if isNotification && negb (truthy method) then
           sendError (-32600) "Invalid Request" VNull ;;
           ret Fulfilled
         else
           match onmessage cb with
           | Some handler =>
               match inbound t with
               | VArr elems => for_of elems (call_onmessage cb handler)
               | msg => call_onmessage cb handler msg
               end
           | None => ret tt
           end ;;
           await_responsePromise)
    (fun err =>
       (if onerror cb then log_routed err else ret tt) ;;
       t <- get ;;
       if negb (responded t) then
         id <- member (inbound t) "id" ;;
         sendError (-32603) "Internal error" (or_null id) ;;
         ret Fulfilled
       else ret Fulfilled).

(** One call made on a transport from outside; a sequence of them is run
    in order, whatever each returns or throws. *)
Inductive invocation : Type :=
| Start
| Send (message : value)
| SendError (code : Z) (message : string) (id : value)
| Close.

Definition invoke (cb : callbacks) (i : invocation) : js HttpOnceTransport unit :=
  match i with
  | Start => start cb ;; ret tt
  | Send message => send message
  | SendError code message id => sendError code message id
  | Close => close cb
  end.

Definition run (cb : callbacks) (ops : list invocation) (t : HttpOnceTransport)
  : HttpOnceTransport :=
  fold_left (fun t i => snd (invoke cb i t)) ops t.

(* ===================================================================== *)
(** ** OpenCTIHTTPServer: tool dispatch *)
(* ===================================================================== *)

(** What the server code is linked against and does not define itself:
    [JSON.stringify] as a text, the [message] the SDK's [McpError]
    constructor stores, the methods of [RequestHandler] (they query the
    OpenCTI instance) and the tool catalogue [ALL_TOOLS]. *)
Record environment : Type := {
  JSON_stringify : value -> string;
  McpError_message : Z -> string -> string;
  requestHandler : string -> value -> completion value;
  ALL_TOOLS : list value
}.

(** [ErrorCode.MethodNotFound], [ErrorCode.InternalError] *)
Definition MethodNotFound : Z := -32601.
Definition InternalError : Z := -32603.

(** [TOOL_HANDLERS] of request-handler.ts *)
Definition TOOL_HANDLERS : list (string * string) :=
  [("get_sector_by_name", "getSectorByName");
   ("list_sectors", "listSectors");
   ("list_countries", "listCountries");
   ("list_regions", "listRegions");
   ("get_report_types", "getReportTypes");
   ("get_reports_by_filters", "getReportsByFilters");
   ("get_malware_by_name", "getMalwareByName");
   ("get_campaigns_by_filters", "getCampaignsByFilters");
   ("get_indicators_by_object_and_type", "getIndicatorsByObjectAndType");
   ("get_stix_relationships_distribution", "getStixRelationshipsDistribution");
   ("get_stix_relationships_distribution_with_dynamic_filters",
    "getStixRelationshipsDistributionWithDynamicFilters")].

(** [TOOL_HANDLERS] is a plain object, so a lookup also finds what it
    inherits from [Object.prototype]. *)
Definition Object_prototype : list string :=
  ["constructor"; "toString"; "toLocaleString"; "valueOf"; "hasOwnProperty";
   "isPrototypeOf"; "propertyIsEnumerable"; "__proto__"; "__defineGetter__";
   "__defineSetter__"; "__lookupGetter__"; "__lookupSetter__"].

Inductive handler_ref : Type :=
| Own (handlerMethod : string)   (* a registered tool *)
| Inherited                      (* a truthy value that names no method *)
| Absent.                        (* undefined *)

Fixpoint own_handler (table : list (string * string)) (toolName : string) : option string :=
  match table with
  | [] => None
  | (k, m) :: rest => if (k =? toolName)%string then Some m else own_handler rest toolName
  end.

(** [TOOL_HANDLERS[toolName]] *)
Definition TOOL_HANDLERS_at (toolName : string) : handler_ref :=
  match own_handler TOOL_HANDLERS toolName with
  | Some m => Own m
  | None =>
      if existsb (fun k => (k =? toolName)%string) Object_prototype then Inherited
      else Absent
  end.

Definition registered (toolName : string) : bool :=
  match own_handler TOOL_HANDLERS toolName with Some _ => true | None => false end.

(** A tool result carrying one text block. *)
Definition text_content (text : string) : value :=
  VArr [VObj [("type", VStr "text"); ("text", VStr text)]].

Definition error_result (text : string) : value :=
  VObj [("content", text_content text); ("isError", VBool true)].

(** [JSON.stringify(v)] where its text is used. *)
Definition stringify {S} (env : environment) (v : value) : js S string :=
  if serializable v then ret (JSON_stringify env v)
  else throw (JsError "TypeError" "Do not know how to serialize a BigInt").

(** [handleError(error, toolName)] of the one-shot HTTP server *)
Definition handleError {S} (env : environment) (error : exn) (toolName : string)
  : js S value :=
  match error with
  | AxiosError data message =>
      errorMessage <- (if truthy data then stringify env data else ret message) ;;
      ret (error_result ("OpenCTI API error: " ++ errorMessage))
  | McpError _ message =>
      ret (error_result ("MCP Error: " ++ message))
  | JsError _ message =>
      ret (error_result ("Unexpected error: " ++ message))
  end.

(** The [CallToolRequestSchema] handler, on a request the SDK has checked
    against the schema: [request.params.name] is a string. *)
Definition call_tool {S} (env : environment) (toolName : string) (arguments : value)
  : js S value :=
  try_catch
    (stringify_for_log arguments ;;
     match TOOL_HANDLERS_at toolName with
     | Absent =>
         throw (McpError MethodNotFound
                  (McpError_message env MethodNotFound ("Unknown tool: " ++ toolName)))
     | Inherited =>
         throw (JsError "TypeError" "this.requestHandler[handlerMethod] is not a function")
     | Own handlerMethod =>
         result <- (fun s => (requestHandler env handlerMethod (or_empty arguments), s)) ;;
         text <- stringify env result ;;
         ret (VObj [("content", text_content text)])
     end)
    (fun error => handleError env error toolName).

(** The [ListToolsRequestSchema] handler *)
Definition list_tools {S} (env : environment) : js S value :=
  let result := VObj [("tools", VArr (ALL_TOOLS env))] in
  stringify_for_log result ;;
  ret result.

(** [handleError] of the SSE server (index-http.ts), which shares the class
    name: only Axios errors become a result, anything else is thrown on. *)
Definition sse_handleError {S} (env : environment) (error : exn) (toolName : string)
  : js S value :=
  match error with
  | AxiosError data message =>
      text <- (if is_undefined data then ret message else stringify env data) ;;
      ret (error_result ("OpenCTI API error: " ++ text))
  | _ => throw error
  end.

(** A JSON-RPC request id: a string or a number. *)
Definition is_request_id (id : value) : bool :=
  match id with VStr _ | VNum _ => true | _ => false end.

(** [{ result, jsonrpc: "2.0", id }] *)
Definition result_response (id result : value) : value :=
  VObj [("result", result); ("jsonrpc", VStr "2.0"); ("id", id)].

Definition exn_code (e : exn) : Z :=
  match e with McpError code _ => code | _ => InternalError end.

(** [e.message] *)
Definition exn_message (e : exn) : string :=
  match e with
  | JsError _ m | McpError _ m | AxiosError _ m => m
  end.

(** The engine's answer to a request: the handler's result, or an error
    object when the handler throws. *)
Definition answer (id : value) (handler : js unit value) : list call :=
  match handler tt with
  | (Normal result, _) => [CallSend (result_response id result)]
  | (Throw e, _) => [CallSend (error_response id (exn_code e) (exn_message e))]
  end.

(** A member of an object, [undefined] when absent or when [o] is not an
    object: what [o.k] is for the names the code reads, [o] not nullish. *)
Definition prop (o : value) (k : string) : value :=
  match o with
  | VObj props => match assoc props k with Some v => v | None => VUndefined end
  | _ => VUndefined
  end.

(** Modelled from the spec: the Session Engine, the SDK's [Server], which is
    not part of the repository.  It is the "generic JSON-RPC dispatcher that
    turns tools/list and tools/call messages into results using the Tool
    Registry" and "calls back into the Adapter's response path": a request
    (version "2.0", a string or number id, a method) is answered by one
    [send] of a complete response carrying the handler's result, or of an
    error object when the handler throws or the method has no handler; any
    other message gets no answer. *)
Definition session_engine (env : environment) (msg : value) : reaction :=
  let id := prop msg "id" in
  let method := prop msg "method" in
  let params := prop msg "params" in
  {| calls :=
       if str_eq (prop msg "jsonrpc") "2.0" && is_request_id id then
         match method with
         | VStr m =>
             if (m =? "tools/list")%string then answer id (list_tools env)
             else if (m =? "tools/call")%string then
               match prop params "name" with
               | VStr toolName => answer id (call_tool env toolName (prop params "arguments"))
               | _ => [CallSend (error_response id (-32602) "Invalid params")]
               end
             else [CallSend (error_response id MethodNotFound "Method not found")]
         | _ => []
         end
       else [];
     raises := None |}.

(** What [server.connect(transport)] assigns to the transport. *)
Definition server_callbacks (env : environment) : callbacks :=
  {| onmessage := Some (session_engine env); onerror := true; onclose := true |}.

(* ===================================================================== *)
(** ** OpenCTIHTTPServer: the /mcp route *)
(* ===================================================================== *)

(** One HTTP exchange: the response object and the transport constructed
    for it, if any.  The transport holds the same response object; once it
    exists, [response] is its [res]. *)
Record exchange : Type := {
  response : Response;
  adapter : option HttpOnceTransport
}.

Definition arriving : exchange := {| response := fresh; adapter := None |}.

Definition with_response (r : Response) (x : exchange) : exchange :=
  {| response := r;
     adapter := match adapter x with Some t => Some (with_res r t) | None => None end |}.

(** [res.<op>] in the route *)
Definition on_response {A} (m : js Response A) : js exchange A :=
  zoom response with_response m.

(** [new HttpOnceTransport(inbound, res)] and [await this.server.connect(transport)],
    which assigns the callbacks and awaits [transport.start()]. *)
Definition connect (cb : callbacks) (inbound : value) : js exchange progress :=
  fun x =>
    match start cb (new_HttpOnceTransport inbound (response x)) with
    | (c, t') => (c, {| response := res t'; adapter := Some t' |})
    end.

(** The body of a 4xx/5xx answer of the route, in the field order of the source. *)
Definition route_error (code : Z) (message : string) (more : list (string * value))
  (id : value) : value :=
  VObj [("jsonrpc", VStr "2.0");
        ("error", VObj ([("code", VNum code); ("message", VStr message)] ++ more));
        ("id", id)].

(** The text [Invalid Request: jsonrpc must be "2.0"], quotes included. *)
Definition jsonrpc_must_be_2_0 : string :=
  let quote := String (Ascii.ascii_of_nat 34) EmptyString in
  "Invalid Request: jsonrpc must be " ++ quote ++ "2.0" ++ quote.

(** [app.post('/mcp', async (req, res) => ...)] with [inbound = req.body];
    the optional bearer-token middleware has let the request through.
    The two log lines in front of the validation are kept for what they
    can throw: [JSON.stringify(inbound)] and the template literal over
    [inbound.method] and [inbound.id]. *)
Definition post_mcp (cb : callbacks) (inbound : value) : js exchange progress :=
  try_catch
    (if negb (truthy inbound) then
       on_response (status 400 ;;
                    json (route_error (-32700) "Parse error: Empty request body" [] VNull)) ;;
       ret Fulfilled
     else
       stringify_for_log inbound ;;
       logged_method <- member inbound "method" ;;
       to_string_for_log logged_method ;;
       logged_id <- member inbound "id" ;;
       to_string_for_log logged_id ;;
       jsonrpc <- member inbound "jsonrpc" ;;
       if negb (truthy jsonrpc) || negb (str_eq jsonrpc "2.0") then
         id <- member inbound "id" ;;
         on_response (status 400 ;;
                      json (route_error (-32600) jsonrpc_must_be_2_0 [] (or_null id))) ;;
         ret Fulfilled
       else
         method <- member inbound "method" ;;
         if negb (truthy method) then
           id <- member inbound "id" ;;
           on_response (status 400 ;;
                        json (route_error (-32600) "Invalid Request: method is required"
                                [] (or_null id))) ;;
           ret Fulfilled
         else connect cb inbound)
    (fun e =>
       x <- get ;;
       (if negb (headersSent (response x)) then
          on_response (status 500 ;;
                       json (route_error (-32603) "Internal error"
                               [("data", VStr (exn_message e))] VNull))
        else ret tt) ;;
       ret Fulfilled).

(** The Express error handler registered after the routes. *)
Definition error_handler (err_message : string) : js exchange unit :=
  x <- get ;;
  if negb (headersSent (response x)) then
    on_response (status 500 ;;
                 json (VObj [("error", VStr "Internal Server Error");
                             ("message", VStr err_message)]))
  else ret tt.

(** What [express.json()] makes of the posted bytes: it hands an error to
    the error handler when they are not JSON it accepts, and the parsed
    value ([undefined] or [{}] when there is no body) to the route
    otherwise. *)
Inductive body : Type :=
| Unparseable (err_message : string)
| Parsed (inbound : value).



(* ===================================================================== *)
(** ** OpenCTIHTTPServer: the bearer-token middleware *)
(* ===================================================================== *)

(** [s.startsWith(p)] *)
Definition startsWith (s p : string) : bool := String.prefix p s.

(** [s.substring(n)]: what follows the first [n] characters. *)
Fixpoint substring_from (n : nat) (s : string) : string :=
  match n, s with
  | O, _ => s
  | S n', String _ rest => substring_from n' rest
  | S _, EmptyString => EmptyString
  end.

(** What a middleware does with a request: it calls [next()], or it ends
    the response itself. *)
Inductive passage : Type :=
| Next
| Ended.

(** The middleware [setupMiddleware] installs when [MCP_AUTH_TOKEN] is
    set; [authorization] is [req.headers.authorization]. *)
Definition auth_middleware (MCP_AUTH_TOKEN path : string) (authorization : option string)
  : js Response passage :=
  if (path =? "/health")%string then ret Next
  else
    match authorization with
    | Some authHeader =>
        if (authHeader =? EmptyString)%string || negb (startsWith authHeader "Bearer ") then
          status 401 ;;
          json (route_error (-32001) "Missing or invalid authorization header" [] VNull) ;;
          ret Ended
        else
          let token := substring_from 7 authHeader in
          if negb (token =? MCP_AUTH_TOKEN)%string then
            status 403 ;;
            json (route_error (-32002) "Invalid token" [] VNull) ;;
            ret Ended
          else ret Next
    | None =>
        status 401 ;;
        json (route_error (-32001) "Missing or invalid authorization header" [] VNull) ;;
        ret Ended
    end.

(** [if (MCP_AUTH_TOKEN) { this.app.use(...) }]: the environment variable
    is unset, empty, or holds the token. *)
Definition authentication (MCP_AUTH_TOKEN : option string) (path : string)
  (authorization : option string) : js Response passage :=
  match MCP_AUTH_TOKEN with
  | Some token =>
      if (token =? EmptyString)%string then ret Next
      else auth_middleware token path authorization
  | None => ret Next
  end.

(** A POST to [/mcp] through the middleware stack, in the order
    [setupMiddleware] and [run] install it: the JSON body parser, the
    authentication, the route; a parser failure skips to the error
    handler. *)
Definition app_post_mcp (MCP_AUTH_TOKEN : option string) (cb : callbacks)
  (authorization : option string) (b : body) : js exchange progress :=
  match b with
  | Unparseable err_message => error_handler err_message ;; ret Fulfilled
  | Parsed inbound =>
      p <- on_response (authentication MCP_AUTH_TOKEN "/mcp" authorization) ;;
      match p with
      | Next => post_mcp cb inbound
      | Ended => ret Fulfilled
      end
  end.

(** The same middleware in the SSE server (index-http.ts), whose
    refusals are plain [{error}] objects. *)
Definition sse_auth_middleware (MCP_AUTH_TOKEN path : string) (authorization : option string)
  : js Response passage :=
  if (path =? "/health")%string then ret Next
  else
    match authorization with
    | Some authHeader =>
        if (authHeader =? EmptyString)%string || negb (startsWith authHeader "Bearer ") then
          status 401 ;;
          json (VObj [("error", VStr "Missing or invalid authorization header")]) ;;
          ret Ended
        else
          let token := substring_from 7 authHeader in
          if negb (token =? MCP_AUTH_TOKEN)%string then
            status 403 ;;
            json (VObj [("error", VStr "Invalid token")]) ;;
            ret Ended
          else ret Next
    | None =>
        status 401 ;;
        json (VObj [("error", VStr "Missing or invalid authorization header")]) ;;
        ret Ended
    end.

(** The [CallToolRequestSchema] handler of the SSE server and of the stdio
    server: the one-shot server's, with [sse_handleError] in the catch. *)
Definition sse_call_tool {S} (env : environment) (toolName : string) (arguments : value)
  : js S value :=
  try_catch
    (stringify_for_log arguments ;;
     match TOOL_HANDLERS_at toolName with
     | Absent =>
         throw (McpError MethodNotFound
                  (McpError_message env MethodNotFound ("Unknown tool: " ++ toolName)))
     | Inherited =>
         throw (JsError "TypeError" "this.requestHandler[handlerMethod] is not a function")
     | Own handlerMethod =>
         result <- (fun s => (requestHandler env handlerMethod (or_empty arguments), s)) ;;
         text <- stringify env result ;;
         ret (VObj [("content", text_content text)])
     end)
    (fun error => sse_handleError env error toolName).

(** The names [TOOL_DEFINITIONS] declares, in order (each entry also has a
    description and an input schema, which play no part below). *)
Definition TOOL_DEFINITIONS_names : list string :=
  ["get_sector_by_name"; "list_sectors"; "list_countries"; "list_regions";
   "get_report_types"; "get_malware_by_name"; "get_indicators_by_object_and_type";
   "get_indicators_by_campaign"; "get_reports_by_filters"; "get_campaigns_by_filters";
   "get_stix_relationships_distribution";
   "get_stix_relationships_distribution_with_dynamic_filters"].

(* ===================================================================== *)
(** ** The entity handlers behind RequestHandler *)
(* ===================================================================== *)

(** [ErrorCode.InvalidParams] *)
Definition InvalidParams : Z := -32602.

(** The GraphQL documents of the queries modules, by name: the handlers
    only pass them on. *)
Inductive query : Type :=
| GET_SECTORS_QUERY
| GET_LIST_AVAILABLE_SECTORS_QUERY
| GET_LIST_AVAILABLE_COUNTRIES_QUERY
| GET_LIST_AVAILABLE_REGIONS_QUERY
| GET_REPORTS_TYPES_QUERY
| GET_REPORTS_BY_FILTERS_QUERY
| GET_CAMPAIGNS_BY_FILTERS_QUERY
| GET_INDICATORS_BY_OBJECT_WITH_TYPE_QUERY
| STIX_RELATIONSHIPS_DISTRIBUTION_QUERY.

(** What the handlers reach outside the repository's sources:
    [axiosInstance.post(url, { query, variables })], which returns the
    response object or throws, and [MalwareHandlers.getMalwareByName],
    whose module is not among the sources. *)
Record backend : Type := {
  post : string -> query -> value -> completion value;
  MalwareHandlers_getMalwareByName : value -> completion value
}.

(** [a ?? d] *)
Definition nullish_or (v d : value) : value := if is_nullish v then d else v.

(** [new McpError(code, message)] *)
Definition new_McpError (env : environment) (code : Z) (message : string) : exn :=
  McpError code (McpError_message env code message).

(** [executeQuery(query, variables)], the same in every handler class. *)
Definition executeQuery {S} (env : environment) (b : backend) (q : query)
  (variables : value) : js S value :=
  response <- (fun s => (post b "/graphql" q variables, s)) ;;
  data <- member response "data" ;;
  inner <- opt_member data "data" ;;
  if negb (truthy inner) then
    text <- stringify env data ;;
    throw (new_McpError env InternalError
             ("Invalid response format from OpenCTI: " ++ text))
  else ret inner.

(** [SectorHandlers] *)
Definition getSectorByName {S} (env : environment) (b : backend) (args : value)
  : js S value :=
  name <- member args "name" ;;
  if negb (truthy name) then
    throw (new_McpError env InvalidParams "Sector name is required")
  else
    to_string_for_log name ;;
    executeQuery env b GET_SECTORS_QUERY (VObj [("search", name)]).

Definition listSectors {S} (env : environment) (b : backend) (args : value)
  : js S value :=
  executeQuery env b GET_LIST_AVAILABLE_SECTORS_QUERY (VObj []).

(** [GeographyHandlers] *)
Definition listCountries {S} (env : environment) (b : backend) (args : value)
  : js S value :=
  search <- member args "search" ;;
  (if truthy search then to_string_for_log search else ret tt) ;;
  executeQuery env b GET_LIST_AVAILABLE_COUNTRIES_QUERY (VObj [("search", or_null search)]).

Definition listRegions {S} (env : environment) (b : backend) (args : value)
  : js S value :=
  search <- member args "search" ;;
  (if truthy search then to_string_for_log search else ret tt) ;;
  executeQuery env b GET_LIST_AVAILABLE_REGIONS_QUERY (VObj [("search", or_null search)]).

(** [ReportHandlers] *)
Definition getReportTypes {S} (env : environment) (b : backend) (args : value)
  : js S value :=
  executeQuery env b GET_REPORTS_TYPES_QUERY (VObj []).

Definition getReportsByFilters {S} (env : environment) (b : backend) (args : value)
  : js S value :=
  filters <- member args "filters" ;;
  if negb (truthy filters) then
    throw (new_McpError env InvalidParams "Filters are required")
  else
    executeQuery env b GET_REPORTS_BY_FILTERS_QUERY
      (VObj [("count", nullish_or (prop args "count") (VNum 25));
             ("cursor", prop args "cursor");
             ("orderBy", nullish_or (prop args "orderBy") (VStr "published"));
             ("orderMode", nullish_or (prop args "orderMode") (VStr "desc"));
             ("filters", filters)]).

(** [CampaignHandlers] *)
Definition getCampaignsByFilters {S} (env : environment) (b : backend) (args : value)
  : js S value :=
  filters <- member args "filters" ;;
  if negb (truthy filters) then
    throw (new_McpError env InvalidParams "Filters are required")
  else
    executeQuery env b GET_CAMPAIGNS_BY_FILTERS_QUERY
      (VObj [("count", nullish_or (prop args "count") (VNum 25));
             ("cursor", prop args "cursor");
             ("orderBy", nullish_or (prop args "orderBy") (VStr "created_at"));
             ("orderMode", nullish_or (prop args "orderMode") (VStr "desc"));
             ("filters", filters)]).

(** [IndicatorHandlers]: the filter group is built from the two required
    arguments. *)
Definition indicator_filters (objectId indicatorType : value) : value :=
  VObj [("mode", VStr "and");
        ("filters",
         VArr [VObj [("key", VStr "entity_type"); ("values", VArr [VStr "Indicator"]);
                     ("operator", VStr "eq"); ("mode", VStr "or")]]);
        ("filterGroups",
         VArr [VObj [("mode", VStr "and");
                     ("filters",
                      VArr [VObj [("key", VStr "regardingOf"); ("operator", VStr "eq");
                                  ("values",
                                   VArr [VObj [("key", VStr "relationship_type");
                                               ("values", VArr [VStr "indicates"])];
                                         VObj [("key", VStr "id");
                                               ("values", VArr [objectId])]]);
                                  ("mode", VStr "or")];
                            VObj [("key", VStr "x_opencti_main_observable_type");
                                  ("operator", VStr "eq");
                                  ("values", VArr [indicatorType]);
                                  ("mode", VStr "or")];
                            VObj [("key", VStr "revoked"); ("operator", VStr "eq");
                                  ("values", VArr [VStr "false"]); ("mode", VStr "or")]]);
                     ("filterGroups", VArr [])]])].

Definition getIndicatorsByObjectAndType {S} (env : environment) (b : backend)
  (args : value) : js S value :=
  objectId <- member args "objectId" ;;
  if negb (truthy objectId) then
    throw (new_McpError env InvalidParams "Object ID is required")
  else
    let indicatorType := prop args "indicatorType" in
    if negb (truthy indicatorType) then
      throw (new_McpError env InvalidParams "Indicator type is required")
    else
      to_string_for_log indicatorType ;;
      to_string_for_log objectId ;;
      executeQuery env b GET_INDICATORS_BY_OBJECT_WITH_TYPE_QUERY
        (VObj [("count", nullish_or (prop args "count") (VNum 25));
               ("cursor", prop args "cursor");
               ("orderBy", nullish_or (prop args "orderBy") (VStr "created"));
               ("orderMode", nullish_or (prop args "orderMode") (VStr "desc"));
               ("filters", indicator_filters objectId indicatorType)]).

(** [RelationshipHandlers]: the variables both methods send, up to the two
    dynamic filters. *)
Definition distribution_variables (args dynamicFrom dynamicTo : value) : value :=
  VObj [("field", prop args "field");
        ("operation", prop args "operation");
        ("startDate", prop args "startDate");
        ("endDate", prop args "endDate");
        ("dateAttribute", prop args "dateAttribute");
        ("isTo", prop args "isTo");
        ("limit", nullish_or (prop args "limit") (VNum 10));
        ("fromOrToId", prop args "fromOrToId");
        ("elementWithTargetTypes", prop args "elementWithTargetTypes");
        ("fromId", prop args "fromId");
        ("fromRole", prop args "fromRole");
        ("fromTypes", prop args "fromTypes");
        ("toId", prop args "toId");
        ("toRole", prop args "toRole");
        ("toTypes", prop args "toTypes");
        ("relationship_type", prop args "relationship_type");
        ("confidences", prop args "confidences");
        ("search", prop args "search");
        ("filters", prop args "filters");
        ("dynamicFrom", dynamicFrom);
        ("dynamicTo", dynamicTo)].

Definition getStixRelationshipsDistribution {S} (env : environment) (b : backend)
  (args : value) : js S value :=
  field <- member args "field" ;;
  if negb (truthy field) then
    throw (new_McpError env InvalidParams "Field is required")
  else if negb (truthy (prop args "operation")) then
    throw (new_McpError env InvalidParams "Operation is required")
  else
    to_string_for_log field ;;
    to_string_for_log (prop args "operation") ;;
    executeQuery env b STIX_RELATIONSHIPS_DISTRIBUTION_QUERY
      (distribution_variables args VNull VNull).

Definition getStixRelationshipsDistributionWithDynamicFilters {S} (env : environment)
  (b : backend) (args : value) : js S value :=
  field <- member args "field" ;;
  if negb (truthy field) then
    throw (new_McpError env InvalidParams "Field is required")
  else if negb (truthy (prop args "operation")) then
    throw (new_McpError env InvalidParams "Operation is required")
  else
    to_string_for_log field ;;
    to_string_for_log (prop args "operation") ;;
    executeQuery env b STIX_RELATIONSHIPS_DISTRIBUTION_QUERY
      (distribution_variables args (prop args "dynamicFrom") (prop args "dynamicTo")).

(** [this.requestHandler[handlerMethod](args)] on the [RequestHandler] of
    request-handler.ts: each method hands [args] to its entity handler; a
    name the class does not define is not a function. *)
Definition RequestHandler {S} (env : environment) (b : backend) (handlerMethod : string)
  (args : value) : js S value :=
  if (handlerMethod =? "getSectorByName")%string then getSectorByName env b args
  else if (handlerMethod =? "listSectors")%string then listSectors env b args
  else if (handlerMethod =? "listCountries")%string then listCountries env b args
  else if (handlerMethod =? "listRegions")%string then listRegions env b args
  else if (handlerMethod =? "getReportTypes")%string then getReportTypes env b args
  else if (handlerMethod =? "getReportsByFilters")%string then getReportsByFilters env b args
  else if (handlerMethod =? "getCampaignsByFilters")%string then
    getCampaignsByFilters env b args
  else if (handlerMethod =? "getMalwareByName")%string then
    (fun s => (MalwareHandlers_getMalwareByName b args, s))
  else if (handlerMethod =? "getIndicatorsByObjectAndType")%string then
    getIndicatorsByObjectAndType env b args
  else if (handlerMethod =? "getStixRelationshipsDistribution")%string then
    getStixRelationshipsDistribution env b args
  else if (handlerMethod =? "getStixRelationshipsDistributionWithDynamicFilters")%string then
    getStixRelationshipsDistributionWithDynamicFilters env b args
  else throw (JsError "TypeError" "this.requestHandler[handlerMethod] is not a function").

(** The methods [RequestHandler] defines. *)
Definition RequestHandler_methods : list string :=
  ["getSectorByName"; "listSectors"; "listCountries"; "listRegions"; "getReportTypes";
   "getReportsByFilters"; "getCampaignsByFilters"; "getMalwareByName";
   "getIndicatorsByObjectAndType"; "getStixRelationshipsDistribution";
   "getStixRelationshipsDistributionWithDynamicFilters"].

(** The environment of a server whose [requestHandler] is the class above,
    on the backend [b]; the texts and the catalogue are those of [base]. *)
Definition with_backend (base : environment) (b : backend) : environment :=
  {| JSON_stringify := JSON_stringify base;
     McpError_message := McpError_message base;
     requestHandler := fun handlerMethod args => fst (RequestHandler base b handlerMethod args tt);
     ALL_TOOLS := ALL_TOOLS base |}.

(* ===================================================================== *)
(** ** Vocabulary of the properties *)
(* ===================================================================== *)

(** [m] keeps the state inside [P], whether it returns or throws. *)
Definition preserves {S A} (P : S -> Prop) (m : js S A) : Prop :=
  forall s, P s -> P (snd (m s)).

(** Nothing is on the wire before the headers are sent, and never more than
    one response. *)
Definition sound (r : Response) : Prop :=
  (headersSent r = false -> wire r = []) /\ (List.length (wire r) <= 1)%nat.

(** The headers are sent and the wire holds [w]. *)
Definition frozen (w : list (Z * option value)) (r : Response) : Prop :=
  headersSent r = true /\ wire r = w.

(** A property of the response object, read on the transport holding it. *)
Definition of_res (Q : Response -> Prop) (t : HttpOnceTransport) : Prop := Q (res t).

(** The transport is in the state the specification calls Responded. *)
Definition answered (t : HttpOnceTransport) : Prop := responded t = true.

(** The first reading of "the first call that writes sets the responded
    flag": a call after which the wire differs leaves the flag set. *)
Definition writer_sets_responded (cb : callbacks) (i : invocation) (t : HttpOnceTransport)
  : Prop :=
  wire (res (snd (invoke cb i t))) <> wire (res t) ->
  responded (snd (invoke cb i t)) = true.

(** "Any later send() is a no-op with a warning": once a response is on
    the wire, [send] only warns. *)
Definition later_send_only_warns (message : value) (t : HttpOnceTransport) : Prop :=
  wire (res t) <> [] -> send message t = console_warn t.


(** The log line of the route can print the body: its [method] and [id]
    members convert to a string. *)
Definition loggable (inbound : value) : bool :=
  string_convertible (prop inbound "method") && string_convertible (prop inbound "id").


(** A notification was acknowledged: status 204, empty body, nothing else. *)
Definition acknowledged_204 (t : HttpOnceTransport) : Prop :=
  wire (res t) = [(204, None)].

(** The state a fresh transport is left in by one write. *)
Definition written (inbound : value) (code : Z) (body : option value) : HttpOnceTransport :=
  {| inbound := inbound;
     res := {| statusCode := code; headersSent := true; wire := [(code, body)] |};
     responded := true; resolved := 1;
     delivered := []; routed := []; closed := 0; warnings := 0 |}.

(** The exchange a route ends in when the transport it constructed is [t]. *)
Definition connected (t : HttpOnceTransport) : exchange :=
  {| response := res t; adapter := Some t |}.

(** The answer to [initialize] and to [ping] for a request id. *)
Definition initialize_response (id : value) : value :=
  VObj [("jsonrpc", VStr "2.0"); ("id", id); ("result", initialize_result)].

Definition ping_response (id : value) : value :=
  VObj [("jsonrpc", VStr "2.0"); ("id", id); ("result", VObj [])].

(** The state of a transport that forwarded its message [inbound] to the
    engine and wrote the engine's answer. *)
Definition forwarded (inbound : value) (body : value) : HttpOnceTransport :=
  {| inbound := inbound;
     res := {| statusCode := 200; headersSent := true; wire := [(200, Some body)] |};
     responded := true; resolved := 1;
     delivered := [inbound]; routed := []; closed := 0; warnings := 0 |}.

(** The exchange a route ends in when it refuses the body itself. *)
Definition refused (code : Z) (body : value) : exchange :=
  {| response := {| statusCode := code; headersSent := true; wire := [(code, Some body)] |};
     adapter := None |}.

(** Sample data for the closed statements below. *)
Definition no_callbacks : callbacks :=
  {| onmessage := None; onerror := false; onclose := false |}.

Definition sample_env : environment :=
  {| JSON_stringify := fun _ => "{}";
     McpError_message := fun _ m => m;
     requestHandler := fun _ _ => Normal (VObj []);
     ALL_TOOLS := [] |}.

Definition request (id : value) (method : string) : value :=
  VObj [("jsonrpc", VStr "2.0"); ("id", id); ("method", VStr method)].

Definition notification (method : string) : value :=
  VObj [("jsonrpc", VStr "2.0"); ("method", VStr method)].

(** A fresh transport bound to a [tools/list] request. *)
Definition tools_list_transport : HttpOnceTransport :=
  new_HttpOnceTransport (request (VNum 1) "tools/list") fresh.

(** An engine that answers every message with a bare result. *)
Definition bare_result_engine (result : value) : callbacks :=
  {| onmessage := Some (fun _ => {| calls := [CallSend result]; raises := None |});
     onerror := true; onclose := true |}.

(** An engine whose [onmessage] throws. *)
Definition throwing_engine : callbacks :=
  {| onmessage := Some (fun _ => {| calls := []; raises := Some (JsError "Error" "boom") |});
     onerror := true; onclose := true |}.

(** *** Vocabulary of the further properties *)

(** Whether [send] takes a message for a complete response. *)
Definition complete (message : value) : bool :=
  truthy message && truthy (prop message "jsonrpc") && negb (is_undefined (prop message "id")).

(** [this.inbound?.id || null] *)
Definition inbound_id (t : HttpOnceTransport) : value := or_null (prop (inbound t) "id").

(** What [send] tries to write for a message, and what it falls back to. *)
Definition response_of (t : HttpOnceTransport) (message : value) : value :=
  if complete message then message
  else VObj [("jsonrpc", VStr "2.0"); ("id", inbound_id t); ("result", message)].

Definition fallback_of (t : HttpOnceTransport) : value :=
  error_response (inbound_id t) (-32603) "Internal error".

Definition answer_of (t : HttpOnceTransport) (message : value) : Z * value :=
  if serializable (response_of t message) then (200, response_of t message)
  else (500, fallback_of t).

(** The transport after one write on its response object. *)
Definition wrote (code : Z) (body : option value) (t : HttpOnceTransport) : HttpOnceTransport :=
  with_res {| statusCode := code; headersSent := true;
              wire := wire (res t) ++ [(code, body)] |} t.

(** Exactly one response is on the wire once the headers are sent, none
    before. *)
Definition exact (r : Response) : Prop :=
  if headersSent r then List.length (wire r) = 1%nat else wire r = [].

(** Between two calls of its methods: the completion signal has fired
    exactly when a response is on the wire, and the responded flag is set
    only then. *)
Definition settled (t : HttpOnceTransport) : Prop :=
  exact (res t)
  /\ (headersSent (res t) = true <-> (0 < resolved t)%nat)
  /\ (responded t = true -> headersSent (res t) = true).

(** The transport that handed its message to the engine and has heard
    nothing back. *)
Definition awaiting (inbound : value) : HttpOnceTransport :=
  {| inbound := inbound; res := fresh; responded := false; resolved := 0;
     delivered := [inbound]; routed := []; closed := 0; warnings := 0 |}.

(** That transport after a [close()]: the 204 is out, the completion
    signal has fired, the responded flag is still unset. *)
Definition acknowledged (cb : callbacks) (inbound : value) : HttpOnceTransport :=
  {| inbound := inbound;
     res := {| statusCode := 204; headersSent := true; wire := [(204, None)] |};
     responded := false; resolved := 1;
     delivered := [inbound]; routed := [];
     closed := if onclose cb then 1 else 0; warnings := 0 |}.

(** The request carries the bearer token, or goes to the health check. *)
Definition authorized (token path : string) (authorization : option string) : Prop :=
  path = "/health" \/ authorization = Some ("Bearer " ++ token).

(** A response object on which one answer was written. *)
Definition answered_with (code : Z) (body : value) : Response :=
  {| statusCode := code; headersSent := true; wire := [(code, Some body)] |}.

(** How an exchange stands for the client: one response, or none yet. *)
Definition one_response (x : exchange) : Prop := List.length (wire (response x)) = 1%nat.

(* ===================================================================== *)
(** ** Reasoning about [js] programs *)
(* ===================================================================== *)

Section Preservation.
Context {S : Type} (P : S -> Prop).

Lemma preserves_ret {A} (a : A) : preserves P (ret a).
Proof. intros s H; exact H. Qed.

Lemma preserves_throw {A} (e : exn) : preserves P (@throw S A e).
Proof. intros s H; exact H. Qed.

Lemma preserves_get : preserves P get.
Proof. intros s H; exact H. Qed.

Lemma preserves_bind {A B} (m : js S A) (k : A -> js S B) :
  preserves P m -> (forall a, preserves P (k a)) -> preserves P (bind m k).
Proof.
  intros Hm Hk s Hs. unfold bind. specialize (Hm s Hs).
  destruct (m s) as [[a | e] s']; simpl in *; [apply Hk; exact Hm | exact Hm].
Qed.

Lemma preserves_try_catch {A} (body : js S A) (handler : exn -> js S A) :
  preserves P body -> (forall e, preserves P (handler e)) ->
  preserves P (try_catch body handler).
Proof.
  intros Hb Hh s Hs. unfold try_catch. specialize (Hb s Hs).
  destruct (body s) as [[a | e] s']; simpl in *; [exact Hb | apply Hh; exact Hb].
Qed.

Lemma preserves_try_finally {A} (body : js S A) (fin : js S unit) :
  preserves P body -> preserves P fin -> preserves P (try_finally body fin).
Proof.
  intros Hb Hf s Hs. unfold try_finally. specialize (Hb s Hs).
  destruct (body s) as [c s']; simpl in *. specialize (Hf s' Hb).
  destruct (fin s') as [[u | e] s'']; exact Hf.
Qed.

Lemma preserves_detached {A} (m : js S A) : preserves P m -> preserves P (detached m).
Proof. intros Hm s Hs. exact (Hm s Hs). Qed.

Lemma preserves_for_of {A} (xs : list A) (body : A -> js S unit) :
  (forall x, preserves P (body x)) -> preserves P (for_of xs body).
Proof.
  intros Hb. induction xs as [| x rest IH]; simpl.
  - apply preserves_ret.
  - apply preserves_bind; [apply Hb | intros _; exact IH].
Qed.

Lemma preserves_member (o : value) (k : string) : preserves P (member o k).
Proof. intros s H. destruct o; simpl; exact H. Qed.

Lemma preserves_opt_member (o : value) (k : string) : preserves P (opt_member o k).
Proof. intros s H. destruct o; simpl; exact H. Qed.

Lemma preserves_in_op (k : string) (o : value) : preserves P (in_op k o).
Proof. intros s H. destruct o; simpl; exact H. Qed.

Lemma preserves_stringify_for_log (v : value) : preserves P (stringify_for_log v).
Proof. intros s H. unfold stringify_for_log. destruct (serializable v); exact H. Qed.

Lemma preserves_is_complete_response (message : value) :
  preserves P (is_complete_response message).
Proof.
  unfold is_complete_response. destruct (truthy message); [| apply preserves_ret].
  apply preserves_bind; [apply preserves_member | intros j].
  destruct (truthy j); [| apply preserves_ret].
  apply preserves_bind; [apply preserves_member | intros i; apply preserves_ret].
Qed.

End Preservation.

(** Run a [js] program as far as the known values allow. *)
Ltac js_unfold :=
  unfold bind, ret, throw, get, modify, try_catch, try_finally, detached, zoom,
    stringify_for_log, is_complete_response, opt_member,
    on_res, status, json, end_,
    send, send_try, sendError, close, call_onmessage, run_call, await_responsePromise,
    set_responded, responseResolve, console_warn, log_delivered, log_routed, log_closed.

Ltac js_run := repeat (progress (js_unfold; simpl)).

(** Decompose a [js] program along its structure; what is left are the
    primitive steps on the state. *)
Ltac preserve_step :=
  lazymatch goal with
  | |- preserves _ (ret _) => apply preserves_ret
  | |- preserves _ (throw _) => apply preserves_throw
  | |- preserves _ get => apply preserves_get
  | |- preserves _ (member _ _) => apply preserves_member
  | |- preserves _ (opt_member _ _) => apply preserves_opt_member
  | |- preserves _ (in_op _ _) => apply preserves_in_op
  | |- preserves _ (stringify_for_log _) => apply preserves_stringify_for_log
  | |- preserves _ (is_complete_response _) => apply preserves_is_complete_response
  | |- preserves _ (bind _ _) => apply preserves_bind; [| intros ?]
  | |- preserves _ (try_catch _ _) => apply preserves_try_catch; [| intros ?]
  | |- preserves _ (try_finally _ _) => apply preserves_try_finally
  | |- preserves _ (detached _) => apply preserves_detached
  | |- preserves _ (for_of _ _) => apply preserves_for_of; intros ?
  | |- preserves _ (if ?b then _ else _) => destruct b
  | |- preserves _ (match ?x with _ => _ end) => destruct x
  end.

(** *** Invariants of the transport

    Whatever the primitive steps of the class keep, every method keeps,
    and so does every sequence of calls, whatever the engine does. *)

Section TransportInvariant.
Variable P : HttpOnceTransport -> Prop.
Hypothesis P_json : forall code b, preserves P (on_res (status code ;; json b)).
Hypothesis P_end : forall code, preserves P (on_res (status code ;; end_)).
Hypothesis P_set_responded : preserves P set_responded.
Hypothesis P_responseResolve : preserves P responseResolve.
Hypothesis P_console_warn : preserves P console_warn.
Hypothesis P_log_delivered : forall msg, preserves P (log_delivered msg).
Hypothesis P_log_routed : forall err, preserves P (log_routed err).
Hypothesis P_log_closed : preserves P log_closed.

Ltac primitive_step :=
  lazymatch goal with
  | |- preserves _ (on_res (bind (status _) (fun _ => json _))) => apply P_json
  | |- preserves _ (on_res (bind (status _) (fun _ => end_))) => apply P_end
  | |- preserves _ set_responded => apply P_set_responded
  | |- preserves _ responseResolve => apply P_responseResolve
  | |- preserves _ console_warn => apply P_console_warn
  | |- preserves _ (log_delivered _) => apply P_log_delivered
  | |- preserves _ (log_routed _) => apply P_log_routed
  | |- preserves _ log_closed => apply P_log_closed
  | |- _ => preserve_step
  end.

Lemma send_try_preserves (message : value) : preserves P (send_try message).
Proof. unfold send_try. repeat primitive_step. Qed.

(** The blocks of the try statement, each with what it keeps; the catch
    block does nothing once the headers are sent. *)
Lemma send_try_blocks (message : value) :
  exists body handler,
    send_try message = try_finally (try_catch body handler) responseResolve
    /\ preserves P body
    /\ forall e t, headersSent (res t) = true -> handler e t = (Normal tt, t).
Proof.
  unfold send_try. eexists. eexists. split; [reflexivity |]. split.
  - repeat primitive_step.
  - intros e t H. unfold bind, get. rewrite H. reflexivity.
Qed.

Lemma send_preserves (message : value) : preserves P (send message).
Proof.
  unfold send. apply preserves_bind; [apply preserves_get | intros t].
  destruct (responded t); [apply P_console_warn |].
  apply preserves_bind; [apply P_set_responded | intros _; apply send_try_preserves].
Qed.

Lemma sendError_preserves (code : Z) (message : string) (id : value) :
  preserves P (sendError code message id).
Proof. unfold sendError. repeat primitive_step. Qed.

Lemma close_preserves (cb : callbacks) : preserves P (close cb).
Proof. unfold close. repeat primitive_step. Qed.

Lemma run_call_preserves (cb : callbacks) (c : call) : preserves P (run_call cb c).
Proof.
  destruct c; simpl; apply preserves_detached;
    [apply send_preserves | apply close_preserves].
Qed.

Lemma call_onmessage_preserves (cb : callbacks) (handler : value -> reaction)
  (msg : value) : preserves P (call_onmessage cb handler msg).
Proof.
  unfold call_onmessage.
  apply preserves_bind; [apply P_log_delivered | intros _].
  apply preserves_bind;
    [apply preserves_for_of; intros c; apply run_call_preserves | intros _].
  destruct (raises (handler msg)); preserve_step.
Qed.

Ltac method_step :=
  lazymatch goal with
  | |- preserves _ (send _) => apply send_preserves
  | |- preserves _ (sendError _ _ _) => apply sendError_preserves
  | |- preserves _ (call_onmessage _ _ _) => apply call_onmessage_preserves
  | |- preserves _ await_responsePromise => unfold await_responsePromise
  | |- _ => primitive_step
  end.

Lemma start_preserves (cb : callbacks) : preserves P (start cb).
Proof. unfold start. repeat method_step. Qed.

Lemma invoke_preserves (cb : callbacks) (i : invocation) : preserves P (invoke cb i).
Proof.
  destruct i; simpl.
  - apply preserves_bind; [apply start_preserves | intros ?; apply preserves_ret].
  - apply send_preserves.
  - apply sendError_preserves.
  - apply close_preserves.
Qed.

Lemma run_preserves (cb : callbacks) (ops : list invocation) (t : HttpOnceTransport) :
  P t -> P (run cb ops t).
Proof.
  revert t. induction ops as [| i rest IH]; intros t Ht; simpl; [exact Ht |].
  apply IH. apply invoke_preserves. exact Ht.
Qed.

End TransportInvariant.

(** *** Three invariants *)

Lemma on_res_of_res (Q : Response -> Prop) {A} (m : js Response A) :
  preserves Q m -> preserves (of_res Q) (on_res m).
Proof.
  intros Hm t Ht. unfold of_res, on_res, zoom in *. specialize (Hm (res t) Ht).
  destruct (m (res t)) as [c r']. exact Hm.
Qed.

Lemma bookkeeping_of_res (Q : Response -> Prop) (f : HttpOnceTransport -> HttpOnceTransport) :
  (forall t, res (f t) = res t) -> preserves (of_res Q) (modify f).
Proof. intros Hf t Ht. unfold of_res, modify in *; simpl. rewrite Hf. exact Ht. Qed.

Section ResponseInvariant.
Variable Q : Response -> Prop.
Hypothesis Q_status : forall code, preserves Q (status code).
Hypothesis Q_json : forall b, preserves Q (json b).
Hypothesis Q_end : preserves Q end_.

Ltac by_res :=
  apply on_res_of_res; apply preserves_bind;
  [apply Q_status | intros _; first [apply Q_json | apply Q_end]].
Ltac by_bookkeeping := apply bookkeeping_of_res; intros ?; reflexivity.

Lemma send_of_res (message : value) : preserves (of_res Q) (send message).
Proof.
  apply send_preserves; intros; first [by_res | by_bookkeeping].
Qed.

Lemma invoke_of_res (cb : callbacks) (i : invocation) :
  preserves (of_res Q) (invoke cb i).
Proof.
  apply invoke_preserves; intros; first [by_res | by_bookkeeping].
Qed.

Lemma run_of_res (cb : callbacks) (ops : list invocation) (t : HttpOnceTransport) :
  of_res Q t -> of_res Q (run cb ops t).
Proof.
  apply run_preserves; intros; first [by_res | by_bookkeeping].
Qed.

End ResponseInvariant.

Lemma fresh_sound : sound fresh.
Proof. split; simpl; [reflexivity | lia]. Qed.

Lemma status_sound (code : Z) : preserves sound (status code).
Proof. intros r H. exact H. Qed.

Lemma json_sound (b : value) : preserves sound (json b).
Proof.
  intros r H. pose proof H as [H0 H1]. unfold json.
  destruct (serializable b); simpl; [| exact H].
  destruct (headersSent r) eqn:E; simpl; [exact H |].
  rewrite (H0 eq_refl). split; [discriminate | simpl; lia].
Qed.

Lemma end_sound : preserves sound end_.
Proof.
  intros r H. pose proof H as [H0 H1]. unfold end_.
  destruct (headersSent r) eqn:E; simpl; [exact H |].
  rewrite (H0 eq_refl). split; [discriminate | simpl; lia].
Qed.

Lemma status_frozen w (code : Z) : preserves (frozen w) (status code).
Proof. intros r H. exact H. Qed.

Lemma json_frozen w (b : value) : preserves (frozen w) (json b).
Proof.
  intros r H. pose proof H as [H0 H1]. unfold json.
  destruct (serializable b); simpl; [| exact H]. rewrite H0. exact H.
Qed.

Lemma end_frozen w : preserves (frozen w) end_.
Proof. intros r H. pose proof H as [H0 H1]. unfold end_. rewrite H0. exact H. Qed.

(** Every reachable response object is sound. *)
Lemma run_sound (cb : callbacks) (ops : list invocation) (t : HttpOnceTransport) :
  of_res sound t -> of_res sound (run cb ops t).
Proof. apply run_of_res; [apply status_sound | apply json_sound | apply end_sound]. Qed.

(** Once the headers are sent the wire never changes again. *)
Lemma run_frozen (cb : callbacks) (ops : list invocation) (t : HttpOnceTransport) :
  headersSent (res t) = true -> wire (res (run cb ops t)) = wire (res t).
Proof.
  intros H.
  assert (F : of_res (frozen (wire (res t))) (run cb ops t)).
  { apply run_of_res;
      [apply status_frozen | apply json_frozen | apply end_frozen | split; [exact H | reflexivity]]. }
  exact (proj2 F).
Qed.

Lemma send_frozen (message : value) (t : HttpOnceTransport) :
  headersSent (res t) = true -> wire (res (snd (send message t))) = wire (res t).
Proof.
  intros H.
  assert (F : of_res (frozen (wire (res t))) (snd (send message t))).
  { apply send_of_res;
      [apply status_frozen | apply json_frozen | split; [exact H | reflexivity]]. }
  exact (proj2 F).
Qed.

Lemma sound_sent (r : Response) : sound r -> wire r <> [] -> headersSent r = true.
Proof.
  intros [H0 _] Hw. destruct (headersSent r); [reflexivity |].
  exfalso. apply Hw. apply H0. reflexivity.
Qed.

(** Nothing ever clears the responded flag. *)
Lemma answered_on_res {A} (m : js Response A) : preserves answered (on_res m).
Proof.
  intros t Ht. unfold answered, on_res, zoom in *.
  destruct (m (res t)) as [c r']. exact Ht.
Qed.

Lemma send_try_answered (message : value) : preserves answered (send_try message).
Proof.
  apply send_try_preserves; intros;
    first [apply answered_on_res | intros t Ht; exact Ht | intros t Ht; reflexivity].
Qed.

Lemma send_answers (message : value) (t : HttpOnceTransport) :
  responded (snd (send message t)) = true.
Proof.
  unfold send, bind, get. destruct (responded t) eqn:E; simpl.
  - exact E.
  - apply send_try_answered. reflexivity.
Qed.

Lemma sendError_answers (code : Z) (message : string) (id : value) (t : HttpOnceTransport) :
  responded (snd (sendError code message id t)) = true.
Proof.
  unfold sendError, bind, get. destruct (responded t) eqn:E; simpl; [exact E |].
  unfold on_res, zoom, status, modify, json; simpl.
  destruct (serializable id); destruct (headersSent (res t)); reflexivity.
Qed.

Lemma close_keeps_flag (cb : callbacks) (t : HttpOnceTransport) :
  responded (snd (close cb t)) = responded t.
Proof.
  destruct t as [inb [sc hs w] rsp rsv dl rt cl wn].
  unfold close, bind, get, on_res, zoom, status, end_, modify, responseResolve,
    log_closed, ret; simpl.
  destruct rsp, hs, (onclose cb); reflexivity.
Qed.

Lemma send_when_responded (message : value) (t : HttpOnceTransport) :
  responded t = true -> send message t = console_warn t.
Proof. intros H. unfold send, bind, get. rewrite H. reflexivity. Qed.

(** A [send] on a response whose headers are sent never throws at its
    caller: the failed write is caught and the fallback is skipped. *)
Lemma send_after_headers (message : value) (t : HttpOnceTransport) :
  headersSent (res t) = true -> fst (send message t) = Normal tt.
Proof.
  intros H. unfold send, bind, get. destruct (responded t); [reflexivity |].
  simpl.
  set (t1 := snd (set_responded t)).
  assert (F : of_res (frozen (wire (res t))) t1) by (split; [exact H | reflexivity]).
  assert (J : forall code b,
             preserves (of_res (frozen (wire (res t)))) (on_res (status code ;; json b))).
  { intros code b. apply on_res_of_res. apply preserves_bind;
      [apply status_frozen | intros _; apply json_frozen]. }
  destruct (send_try_blocks _ J message) as (body & handler & E & Hbody & Hskip).
  change (fst (send_try message t1) = Normal tt).
  rewrite E. unfold try_finally, try_catch.
  specialize (Hbody t1 F).
  destruct (body t1) as [[[] | e] s']; simpl in *; [reflexivity |].
  rewrite (Hskip e s' (proj1 Hbody)). reflexivity.
Qed.

(* ===================================================================== *)
(** ** Reading objects *)
(* ===================================================================== *)

Lemma prop_assoc (props : list (string * value)) (k : string) (v : value) :
  assoc props k = Some v -> prop (VObj props) k = v.
Proof. intros H. simpl. rewrite H. reflexivity. Qed.

Lemma member_prop {S} (o : value) (k : string) (s : S) :
  is_nullish o = false -> (k =? "length")%string = false ->
  member o k s = (Normal (prop o k), s).
Proof.
  intros Ho Hk. destruct o; simpl in *; try discriminate; try reflexivity;
    rewrite Hk; reflexivity.
Qed.

Lemma opt_member_prop {S} (o : value) (k : string) (s : S) :
  (k =? "length")%string = false -> opt_member o k s = (Normal (prop o k), s).
Proof.
  intros Hk. unfold opt_member. destruct (is_nullish o) eqn:E.
  - destruct o; simpl in *; try discriminate; reflexivity.
  - apply member_prop; assumption.
Qed.

Lemma serializable_assoc (props : list (string * value)) (k : string) (v : value) :
  forallb (fun '(_, x) => serializable x) props = true ->
  assoc props k = Some v -> serializable v = true.
Proof.
  induction props as [| [k' x] rest IH]; simpl; [discriminate |].
  intros H Hk. apply andb_true_iff in H as [Hx Hrest].
  destruct (k' =? k)%string.
  - injection Hk as <-. exact Hx.
  - apply IH; assumption.
Qed.

Lemma serializable_prop (o : value) (k : string) :
  serializable o = true -> serializable (prop o k) = true.
Proof.
  destruct o; simpl; try reflexivity. intros H.
  destruct (assoc props k) eqn:E; [| reflexivity].
  apply (serializable_assoc props k); assumption.
Qed.

Lemma truthy_not_nullish (v : value) : truthy v = true -> is_nullish v = false.
Proof. destruct v; simpl; congruence. Qed.

(* ===================================================================== *)
(** ** The at-most-one-response invariant (C1) *)
(* ===================================================================== *)

(** C1, as stated, fails: [close()] is a call that writes (the 204) and
    leaves the responded flag unset, and a [send] after it is not the
    guarded no-op with a warning: it sets the flag, attempts the write and
    catches the failure. *)
Lemma C1_close_writes_without_flag :
  ~ writer_sets_responded no_callbacks Close tools_list_transport
  /\ ~ later_send_only_warns (VStr "late") (run no_callbacks [Close] tools_list_transport).
Proof.
  split; intros H.
  - assert (E : responded (snd (invoke no_callbacks Close tools_list_transport)) = true).
    { apply H. vm_compute. discriminate. }
    vm_compute in E. discriminate.
  - assert (E : send (VStr "late") (run no_callbacks [Close] tools_list_transport)
                = console_warn (run no_callbacks [Close] tools_list_transport)).
    { apply H. vm_compute. discriminate. }
    vm_compute in E. discriminate.
Qed.

(** C1 (amended): across any sequence of start / send / sendError / close
    calls, with any engine behind [onmessage], at most one response is on
    the wire.  Every [send] and [sendError] leaves the responded flag set,
    and a [send] on a set flag is exactly the warning.  [close] never
    touches the flag; once anything is on the wire (a [close] included)
    a [send] returns normally and neither it nor any further sequence of
    calls changes the wire. *)
Theorem C1_at_most_one_response_write
  (cb : callbacks) (inbound : value) (before after : list invocation) (message : value) :
  let t := run cb before (new_HttpOnceTransport inbound fresh) in
  (List.length (wire (res t)) <= 1)%nat
  /\ responded (snd (send message t)) = true
  /\ (forall code text id, responded (snd (sendError code text id t)) = true)
  /\ responded (snd (close cb t)) = responded t
  /\ (responded t = true -> send message t = console_warn t)
  /\ (wire (res t) <> [] ->
      fst (send message t) = Normal tt
      /\ wire (res (snd (send message t))) = wire (res t)
      /\ wire (res (run cb after t)) = wire (res t)).
Proof.
  intros t.
  assert (St : of_res sound t) by (apply run_sound; exact fresh_sound).
  split; [exact (proj2 St) |].
  split; [apply send_answers |].
  split; [intros; apply sendError_answers |].
  split; [apply close_keeps_flag |].
  split; [apply send_when_responded |].
  intros Hw. pose proof (sound_sent _ St Hw) as Hs.
  split; [apply send_after_headers; exact Hs |].
  split; [apply send_frozen; exact Hs | apply run_frozen; exact Hs].
Qed.

(** The amended C1 at work: a second [send], and a [send] and a [start]
    after a [close]. *)
Lemma C1_at_most_one_response_write_witness :
  send (VStr "again") (run no_callbacks [Send (VStr "first")] tools_list_transport)
    = console_warn (run no_callbacks [Send (VStr "first")] tools_list_transport)
  /\ wire (res (run no_callbacks [Send (VStr "late"); Start]
                  (run no_callbacks [Close] tools_list_transport)))
     = [(204, None)].
Proof.
  split.
  - apply (C1_at_most_one_response_write no_callbacks (request (VNum 1) "tools/list")
             [Send (VStr "first")] [] (VStr "again")).
    reflexivity.
  - destruct (C1_at_most_one_response_write no_callbacks (request (VNum 1) "tools/list")
                [Close] [Send (VStr "late"); Start] (VStr "late"))
      as (_ & _ & _ & _ & _ & H).
    destruct H as (_ & _ & H); [vm_compute; discriminate |].
    unfold tools_list_transport. rewrite H. reflexivity.
Defined.

(* ===================================================================== *)
(** ** Methods answered without the engine (C7, C8, C9) *)
(* ===================================================================== *)

Lemma start_initialize (cb : callbacks) (props : list (string * value)) (id : value) :
  assoc props "method" = Some (VStr "initialize") ->
  assoc props "id" = Some id ->
  is_undefined id = false ->
  serializable (VObj props) = true ->
  start cb (new_HttpOnceTransport (VObj props) fresh)
  = (Normal Fulfilled, written (VObj props) 200 (Some (initialize_response id))).
Proof.
  intros Hm Hid Hdef Hser.
  assert (Sid : serializable id = true) by (apply (serializable_assoc props "id"); assumption).
  assert (Sci : serializable (prop (prop (VObj props) "params") "clientInfo") = true)
    by (do 2 apply serializable_prop; exact Hser).
  unfold start, try_catch, bind, get. simpl.
  rewrite Hid, Hm. simpl.
  change (match assoc props "params" with Some v => v | None => VUndefined end)
    with (prop (VObj props) "params").
  rewrite opt_member_prop by reflexivity.
  unfold stringify_for_log. rewrite Sci. simpl.
  unfold send, bind, get. simpl.
  unfold send_try, try_finally, try_catch, bind, get, is_complete_response. simpl.
  rewrite Hdef. simpl.
  unfold stringify_for_log, on_res, zoom, bind, status, json, modify. simpl.
  rewrite Sid. simpl. reflexivity.
Qed.

Lemma start_ping (cb : callbacks) (props : list (string * value)) (id : value) :
  assoc props "method" = Some (VStr "ping") ->
  assoc props "id" = Some id ->
  is_undefined id = false ->
  serializable id = true ->
  start cb (new_HttpOnceTransport (VObj props) fresh)
  = (Normal Fulfilled, written (VObj props) 200 (Some (ping_response id))).
Proof.
  intros Hm Hid Hdef Sid.
  unfold start, try_catch, bind, get. simpl.
  rewrite Hid, Hm. simpl.
  unfold send, bind, get. simpl.
  unfold send_try, try_finally, try_catch, bind, get, is_complete_response. simpl.
  rewrite Hdef. simpl.
  unfold stringify_for_log, on_res, zoom, bind, status, json, modify. simpl.
  rewrite Sid. simpl. reflexivity.
Qed.

Lemma start_notifications_initialized (cb : callbacks) (props : list (string * value)) :
  assoc props "method" = Some (VStr "notifications/initialized") ->
  start cb (new_HttpOnceTransport (VObj props) fresh)
  = (Normal Fulfilled, written (VObj props) 204 None).
Proof.
  intros Hm. unfold start, try_catch, bind, get. simpl.
  destruct (assoc props "id"); rewrite Hm; reflexivity.
Qed.

(** A well-formed envelope reaches [connect], and the route ends as
    [start] does. *)
Lemma post_mcp_connect (cb : callbacks) (props : list (string * value)) (method : value)
  (p : progress) (t : HttpOnceTransport) :
  serializable (VObj props) = true ->
  loggable (VObj props) = true ->
  assoc props "jsonrpc" = Some (VStr "2.0") ->
  assoc props "method" = Some method ->
  truthy method = true ->
  start cb (new_HttpOnceTransport (VObj props) fresh) = (Normal p, t) ->
  post_mcp cb (VObj props) arriving = (Normal p, connected t).
Proof.
  intros Hser Hlog Hj Hm Ht Hstart.
  apply andb_prop in Hlog. destruct Hlog as [Lm Li]. cbn [prop] in Lm, Li.
  unfold post_mcp, try_catch, bind. cbn [member ret truthy negb].
  unfold stringify_for_log, to_string_for_log. rewrite Hser. cbn [ret].
  rewrite Lm, Li. cbn [ret].
  rewrite Hj. simpl. rewrite Hm, Ht. simpl.
  unfold connect. simpl. rewrite Hstart. reflexivity.
Qed.

(** A truthy body whose [method] or [id] the log line cannot print: the
    template literal throws, the catch of the route answers 500, and no
    transport is constructed. *)
Lemma post_mcp_unloggable (cb : callbacks) (inbound : value) :
  truthy inbound = true ->
  serializable inbound = true ->
  loggable inbound = false ->
  post_mcp cb inbound arriving
  = (Normal Fulfilled,
     refused 500
       (route_error (-32603) "Internal error"
          [("data", VStr "Cannot convert object to primitive value")] VNull)).
Proof.
  intros Ht Hser Hlog. unfold loggable in Hlog.
  destruct inbound as [| | b | n | n | s | elems | props]; try discriminate Hlog.
  unfold post_mcp, try_catch, bind. rewrite Ht. cbn [negb member ret].
  unfold stringify_for_log, to_string_for_log. rewrite Hser. cbn [ret].
  cbn [prop] in Hlog.
  destruct (string_convertible
              (match assoc props "method" with Some v => v | None => VUndefined end)).
  - cbn [andb] in Hlog. cbn [ret]. rewrite Hlog. reflexivity.
  - reflexivity.
Qed.

(** A request id converts to a string, and so does a method name. *)
Lemma request_loggable (props : list (string * value)) (method : string) (id : value) :
  assoc props "method" = Some (VStr method) ->
  assoc props "id" = Some id ->
  string_convertible id = true ->
  loggable (VObj props) = true.
Proof. intros Hm Hid Hc. unfold loggable. cbn [prop]. rewrite Hm, Hid. exact Hc. Qed.

(** C7: every initialize request is answered with the fixed handshake
    object, whatever callbacks are assigned and whatever the tool
    catalogue and the registry of the server are; the engine receives
    nothing.  [start] does so for every id; through the route the same
    holds for every id the log line of the route can print (every string
    and every number is one), and for any other id the log line throws
    and the route answers 500 without a transport. *)
Theorem C7_initialize_fixed_handshake
  (env : environment) (cb : callbacks) (props : list (string * value)) (id : value) :
  assoc props "jsonrpc" = Some (VStr "2.0") ->
  assoc props "method" = Some (VStr "initialize") ->
  assoc props "id" = Some id ->
  is_undefined id = false ->
  serializable (VObj props) = true ->
  start cb (new_HttpOnceTransport (VObj props) fresh)
    = (Normal Fulfilled, written (VObj props) 200 (Some (initialize_response id)))
  /\ (string_convertible id = true ->
      post_mcp (server_callbacks env) (VObj props) arriving
      = (Normal Fulfilled,
         connected (written (VObj props) 200 (Some (initialize_response id)))))
  /\ (string_convertible id = false ->
      post_mcp (server_callbacks env) (VObj props) arriving
      = (Normal Fulfilled,
         refused 500
           (route_error (-32603) "Internal error"
              [("data", VStr "Cannot convert object to primitive value")] VNull)))
  /\ delivered (snd (start cb (new_HttpOnceTransport (VObj props) fresh))) = []
  /\ prop (initialize_response id) "id" = id
  /\ prop initialize_result "protocolVersion" = VStr "2024-11-05"
  /\ prop (prop (prop initialize_result "capabilities") "tools") "listChanged" = VBool false
  /\ prop (prop initialize_result "capabilities") "logging" = VObj []
  /\ prop (prop initialize_result "serverInfo") "name" = VStr "opencti-server"
  /\ prop (prop initialize_result "serverInfo") "version" = VStr "0.1.0".
Proof.
  intros Hj Hm Hid Hdef Hser.
  pose proof (start_initialize cb props id Hm Hid Hdef Hser) as E.
  split; [exact E |].
  split; [| split].
  - intros Hc.
    apply (post_mcp_connect _ props (VStr "initialize")); try assumption; try reflexivity.
    + exact (request_loggable props "initialize" id Hm Hid Hc).
    + apply start_initialize; assumption.
  - intros Hc. apply post_mcp_unloggable; try assumption; try reflexivity.
    unfold loggable. cbn [prop]. rewrite Hm, Hid, Hc. reflexivity.
  - rewrite E. repeat split; reflexivity.
Qed.

(** Scenario A of the specification. *)
Lemma C7_initialize_fixed_handshake_witness :
  post_mcp (server_callbacks sample_env)
    (VObj [("jsonrpc", VStr "2.0"); ("id", VStr "1"); ("method", VStr "initialize");
           ("params", VObj [])]) arriving
  = (Normal Fulfilled,
     connected
       (written
          (VObj [("jsonrpc", VStr "2.0"); ("id", VStr "1"); ("method", VStr "initialize");
                 ("params", VObj [])])
          200 (Some (initialize_response (VStr "1"))))).
Proof.
  apply (C7_initialize_fixed_handshake sample_env no_callbacks
           [("jsonrpc", VStr "2.0"); ("id", VStr "1"); ("method", VStr "initialize");
            ("params", VObj [])] (VStr "1")); reflexivity.
Defined.

(** C8: every ping request is answered inline with the result [{}] and
    the request id as it came; [onmessage] is never called, so neither the
    engine nor the tool registry behind it takes part, whatever they are.
    [start] does so for every id; through the route the same holds for
    every id the log line of the route can print (every string and every
    number is one), and for any other id the log line throws and the route
    answers 500 without a transport, so that nothing is invoked either. *)
Theorem C8_ping_answered_inline
  (env : environment) (cb : callbacks) (props : list (string * value)) (id : value) :
  assoc props "jsonrpc" = Some (VStr "2.0") ->
  assoc props "method" = Some (VStr "ping") ->
  assoc props "id" = Some id ->
  is_undefined id = false ->
  serializable (VObj props) = true ->
  start cb (new_HttpOnceTransport (VObj props) fresh)
    = (Normal Fulfilled, written (VObj props) 200 (Some (ping_response id)))
  /\ (string_convertible id = true ->
      post_mcp (server_callbacks env) (VObj props) arriving
      = (Normal Fulfilled, connected (written (VObj props) 200 (Some (ping_response id)))))
  /\ (string_convertible id = false ->
      post_mcp (server_callbacks env) (VObj props) arriving
      = (Normal Fulfilled,
         refused 500
           (route_error (-32603) "Internal error"
              [("data", VStr "Cannot convert object to primitive value")] VNull)))
  /\ delivered (snd (start cb (new_HttpOnceTransport (VObj props) fresh))) = []
  /\ prop (ping_response id) "id" = id
  /\ prop (ping_response id) "result" = VObj [].
Proof.
  intros Hj Hm Hid Hdef Hser.
  assert (Sid : serializable id = true) by (apply (serializable_assoc props "id"); assumption).
  pose proof (start_ping cb props id Hm Hid Hdef Sid) as E.
  split; [exact E |].
  split; [| split].
  - intros Hc.
    apply (post_mcp_connect _ props (VStr "ping")); try assumption; try reflexivity.
    + exact (request_loggable props "ping" id Hm Hid Hc).
    + apply start_ping; assumption.
  - intros Hc. apply post_mcp_unloggable; try assumption; try reflexivity.
    unfold loggable. cbn [prop]. rewrite Hm, Hid, Hc. reflexivity.
  - rewrite E. repeat split; reflexivity.
Qed.

(** A ping with the id 0, behind an engine that would throw. *)
Lemma C8_ping_answered_inline_witness :
  start (throwing_engine) (new_HttpOnceTransport (request (VNum 0) "ping") fresh)
  = (Normal Fulfilled, written (request (VNum 0) "ping") 200 (Some (ping_response (VNum 0)))).
Proof.
  apply (C8_ping_answered_inline sample_env throwing_engine
           [("jsonrpc", VStr "2.0"); ("id", VNum 0); ("method", VStr "ping")] (VNum 0));
    reflexivity.
Defined.

(** C9: a message whose method is notifications/initialized gets the 204
    with an empty body and the completion signal, by its method alone:
    with an id or without, nothing is serialized and no id is echoed. *)
Theorem C9_notifications_initialized_by_method_alone
  (cb : callbacks) (props : list (string * value)) :
  assoc props "method" = Some (VStr "notifications/initialized") ->
  start cb (new_HttpOnceTransport (VObj props) fresh)
    = (Normal Fulfilled, written (VObj props) 204 None)
  /\ acknowledged_204 (snd (start cb (new_HttpOnceTransport (VObj props) fresh)))
  /\ resolved (snd (start cb (new_HttpOnceTransport (VObj props) fresh))) = 1%nat.
Proof.
  intros Hm. rewrite (start_notifications_initialized cb props Hm).
  repeat split; reflexivity.
Qed.

(** notifications/initialized sent with the id 7. *)
Lemma C9_notifications_initialized_by_method_alone_witness :
  acknowledged_204
    (snd (start no_callbacks
            (new_HttpOnceTransport (request (VStr "7") "notifications/initialized") fresh))).
Proof.
  apply (C9_notifications_initialized_by_method_alone no_callbacks
           [("jsonrpc", VStr "2.0"); ("id", VStr "7");
            ("method", VStr "notifications/initialized")]).
  reflexivity.
Defined.

(* ===================================================================== *)
(** ** Messages forwarded to the engine (C5) *)
(* ===================================================================== *)

(** A request that is not answered inline goes to [onmessage]; when the
    engine answers it with one complete response, that response is written
    as it is. *)
Lemma start_forwarded (cb : callbacks) (handler : value -> reaction)
  (props respProps : list (string * value)) (id jsonrpc rj ri : value) (method : string) :
  onmessage cb = Some handler ->
  assoc props "id" = Some id ->
  assoc props "method" = Some (VStr method) ->
  (method =? "initialize")%string = false ->
  (method =? "notifications/initialized")%string = false ->
  (method =? "ping")%string = false ->
  (method =? EmptyString)%string = false ->
  assoc props "jsonrpc" = Some jsonrpc ->
  truthy jsonrpc = true ->
  handler (VObj props) = {| calls := [CallSend (VObj respProps)]; raises := None |} ->
  assoc respProps "jsonrpc" = Some rj -> truthy rj = true ->
  assoc respProps "id" = Some ri -> is_undefined ri = false ->
  serializable (VObj respProps) = true ->
  start cb (new_HttpOnceTransport (VObj props) fresh)
  = (Normal Fulfilled, forwarded (VObj props) (VObj respProps)).
Proof.
  intros Hon Hid Hm N1 N2 N3 N4 Hj Tj Hh Hrj Trj Hri Dri Hser.
  unfold start. js_run.
  rewrite Hid, Hm. simpl. rewrite N1, N2, N3. simpl.
  rewrite Hj. simpl. rewrite Tj, N4. simpl.
  rewrite Hon, Hh. js_run.
  rewrite Hrj. simpl. rewrite Trj. simpl. rewrite Hri, Dri. simpl.
  simpl in Hser. rewrite Hser. reflexivity.
Qed.







(** The SSE server's [handleError] throws an [McpError] on: there an
    unknown tool name ends as a protocol error of the engine. *)
Lemma sse_handleError_rethrows {S} (env : environment) (code : Z) (message toolName : string)
  (s : S) :
  sse_handleError env (McpError code message) toolName s = (Throw (McpError code message), s).
Proof. reflexivity. Qed.

(* ===================================================================== *)
(** ** Envelopes refused by the route (C4) *)
(* ===================================================================== *)

Lemma try_catch_then_ret {S A B} (m : js S A) (b : B) (handler : exn -> js S B)
  (s s' : S) (a : A) :
  m s = (Normal a, s') -> try_catch (bind m (fun _ => ret b)) handler s = (Normal b, s').
Proof. intros H. unfold try_catch, bind. rewrite H. reflexivity. Qed.

Lemma serializable_or_null (v : value) : serializable v = true -> serializable (or_null v) = true.
Proof. intros H. unfold or_null. destruct (truthy v); [exact H | reflexivity]. Qed.

Lemma str_eq_truthy (v : value) : str_eq v "2.0" = true -> truthy v = true.
Proof.
  destruct v; simpl; try discriminate. intros H.
  apply String.eqb_eq in H. subst s. reflexivity.
Qed.

(** The route writing a 400 on an exchange that has just arrived. *)
Lemma refuse_400 (code : Z) (message : string) (id : value) :
  serializable id = true ->
  on_response (status 400 ;; json (route_error code message [] id)) arriving
  = (Normal tt, refused 400 (route_error code message [] id)).
Proof.
  intros H. unfold on_response, zoom, bind, status, json, modify. simpl.
  rewrite H. reflexivity.
Qed.

Lemma post_mcp_falsy (cb : callbacks) (inbound : value) :
  truthy inbound = false ->
  post_mcp cb inbound arriving
  = (Normal Fulfilled,
     refused 400 (route_error (-32700) "Parse error: Empty request body" [] VNull)).
Proof.
  intros H. unfold post_mcp. rewrite H. simpl negb. cbv iota.
  apply try_catch_then_ret with (a := tt). apply refuse_400. reflexivity.
Qed.

Lemma bind_member {S B} (o : value) (k : string) (f : value -> js S B) :
  is_nullish o = false -> (k =? "length")%string = false ->
  bind (member o k) f = f (prop o k).
Proof.
  intros Ho Hk. destruct o; simpl in *; try discriminate; try rewrite Hk; reflexivity.
Qed.

Lemma bind_stringify_for_log {S B} (v : value) (f : unit -> js S B) :
  serializable v = true -> bind (stringify_for_log v) f = f tt.
Proof. intros H. unfold stringify_for_log. rewrite H. reflexivity. Qed.

Lemma bind_to_string_for_log {S B} (v : value) (f : unit -> js S B) :
  string_convertible v = true -> bind (to_string_for_log v) f = f tt.
Proof. intros H. unfold to_string_for_log. rewrite H. reflexivity. Qed.

Lemma post_mcp_invalid (cb : callbacks) (inbound : value) :
  truthy inbound = true ->
  serializable inbound = true ->
  loggable inbound = true ->
  negb (str_eq (prop inbound "jsonrpc") "2.0") || negb (truthy (prop inbound "method")) = true ->
  exists message,
    post_mcp cb inbound arriving
    = (Normal Fulfilled,
       refused 400 (route_error (-32600) message [] (or_null (prop inbound "id")))).
Proof.
  intros Ht Hser Hlog Hbad.
  apply andb_prop in Hlog. destruct Hlog as [Lm Li].
  pose proof (truthy_not_nullish _ Ht) as Hn.
  assert (Sid : serializable (or_null (prop inbound "id")) = true)
    by (apply serializable_or_null, serializable_prop; exact Hser).
  unfold post_mcp. rewrite Ht. simpl negb. cbv iota.
  rewrite bind_stringify_for_log by exact Hser.
  rewrite bind_member by (assumption || reflexivity).
  rewrite bind_to_string_for_log by exact Lm.
  rewrite bind_member by (assumption || reflexivity).
  rewrite bind_to_string_for_log by exact Li.
  rewrite bind_member by (assumption || reflexivity).
  destruct (str_eq (prop inbound "jsonrpc") "2.0") eqn:E.
  - rewrite (str_eq_truthy _ E). simpl negb. simpl orb. cbv iota.
    simpl in Hbad. apply negb_true_iff in Hbad.
    rewrite bind_member by (assumption || reflexivity).
    rewrite Hbad. simpl negb. cbv iota.
    rewrite bind_member by (assumption || reflexivity).
    eexists. apply try_catch_then_ret with (a := tt). apply refuse_400. exact Sid.
  - rewrite orb_true_r. cbv iota.
    rewrite bind_member by (assumption || reflexivity).
    eexists. apply try_catch_then_ret with (a := tt). apply refuse_400. exact Sid.
Qed.

Lemma error_handler_500 (err_message : string) :
  error_handler err_message arriving
  = (Normal tt,
     refused 500 (VObj [("error", VStr "Internal Server Error");
                        ("message", VStr err_message)])).
Proof. reflexivity. Qed.




(* ===================================================================== *)
(** ** Where the code departs from the specification (C2, C3, C6, C10) *)
(* ===================================================================== *)

(** What does hold on the wrap path: a bare result sent for a request
    whose id is truthy is wrapped under that id. *)
Lemma send_wraps_bare_result (props : list (string * value)) (id message : value) :
  assoc props "id" = Some id ->
  truthy id = true ->
  serializable id = true ->
  serializable message = true ->
  truthy (prop message "jsonrpc") = false ->
  send message (new_HttpOnceTransport (VObj props) fresh)
  = (Normal tt,
     written (VObj props) 200
       (Some (VObj [("jsonrpc", VStr "2.0"); ("id", id); ("result", message)]))).
Proof.
  intros Hid Tid Sid Sm Hj.
  assert (D : forall t : HttpOnceTransport, is_complete_response message t = (Normal false, t)).
  { intros t. unfold is_complete_response. destruct (truthy message) eqn:Tm; [| reflexivity].
    rewrite bind_member by (apply truthy_not_nullish; exact Tm) || reflexivity.
    rewrite Hj. reflexivity. }
  unfold send, send_try.
  unfold bind, get, ret, try_catch, try_finally, modify, set_responded; simpl.
  rewrite D. rewrite Hid. unfold or_null. rewrite Tid.
  unfold stringify_for_log, on_res, zoom, status, json, modify, responseResolve; simpl.
  rewrite Sid, Sm. reflexivity.
Qed.

(** C2: a request id that is falsy is not echoed where the id goes through
    [|| null]: on the wrap path of [send] and on the error path of [start]
    the response carries [null] for the ids 0 and the empty string.  The
    inline answers, which copy [this.inbound.id], do echo it. *)
Theorem C2_falsy_id_answered_with_null :
  wire (res (snd (start (bare_result_engine (VObj [("tools", VArr [])]))
                    (new_HttpOnceTransport (request (VNum 0) "tools/list") fresh))))
  = [(200, Some (VObj [("jsonrpc", VStr "2.0"); ("id", VNull);
                       ("result", VObj [("tools", VArr [])])]))]
  /\ wire (res (snd (start (bare_result_engine (VObj [("tools", VArr [])]))
                       (new_HttpOnceTransport (request (VStr EmptyString) "tools/list") fresh))))
     = [(200, Some (VObj [("jsonrpc", VStr "2.0"); ("id", VNull);
                          ("result", VObj [("tools", VArr [])])]))]
  /\ wire (res (snd (start throwing_engine
                       (new_HttpOnceTransport (request (VNum 0) "tools/list") fresh))))
     = [(200, Some (error_response VNull (-32603) "Internal error"))]
  /\ wire (res (snd (start throwing_engine
                       (new_HttpOnceTransport (request (VNum 0) "ping") fresh))))
     = [(200, Some (ping_response (VNum 0)))].
Proof. repeat split; reflexivity. Qed.

(** C3: a notification whose method is initialize or ping is answered
    with HTTP 200 and a JSON-RPC object, the inline answer wrapped once
    more as a result under the id [null]; it is not acknowledged with 204. *)
Theorem C3_inline_methods_answer_notifications (cb : callbacks) :
  start cb (new_HttpOnceTransport (notification "initialize") fresh)
  = (Normal Fulfilled,
     written (notification "initialize") 200
       (Some (VObj [("jsonrpc", VStr "2.0"); ("id", VNull);
                    ("result", initialize_response VUndefined)])))
  /\ start cb (new_HttpOnceTransport (notification "ping") fresh)
     = (Normal Fulfilled,
        written (notification "ping") 200
          (Some (VObj [("jsonrpc", VStr "2.0"); ("id", VNull);
                       ("result", ping_response VUndefined)])))
  /\ ~ acknowledged_204
         (snd (start cb (new_HttpOnceTransport (notification "initialize") fresh))).
Proof.
  split; [reflexivity |]. split; [reflexivity |].
  intros H. unfold acknowledged_204 in H. vm_compute in H. discriminate.
Qed.

(** C6: on the inbound value [null] (and [undefined]) the catch block of
    [start] itself throws while reading [this.inbound.id]: the promise of
    [start] is rejected, nothing is written and the completion signal does
    not fire.  On an inbound value that is not nullish the Internal Error
    response is written. *)
Theorem C6_null_inbound_start_rejects (cb : callbacks) :
  fst (start cb (new_HttpOnceTransport VNull fresh))
  = Throw (JsError "TypeError" "Cannot read properties of null or undefined: id")
  /\ wire (res (snd (start cb (new_HttpOnceTransport VNull fresh)))) = []
  /\ resolved (snd (start cb (new_HttpOnceTransport VNull fresh))) = 0%nat
  /\ fst (start cb (new_HttpOnceTransport VUndefined fresh))
     = Throw (JsError "TypeError" "Cannot read properties of null or undefined: id")
  /\ wire (res (snd (start cb (new_HttpOnceTransport (VNum 5) fresh))))
     = [(200, Some (error_response VNull (-32603) "Internal error"))].
Proof.
  unfold start. js_run. destruct (onerror cb); repeat split; reflexivity.
Qed.

(** C10: an inbound JSON array never reaches [onmessage]: an array has no
    [id] and no [method], so [start] answers it with one Invalid Request
    error and returns before the loop over its elements. *)
Theorem C10_array_is_refused_before_delivery (cb : callbacks) (elems : list value) :
  start cb (new_HttpOnceTransport (VArr elems) fresh)
  = (Normal Fulfilled,
     written (VArr elems) 200 (Some (error_response VNull (-32600) "Invalid Request")))
  /\ delivered (snd (start cb (new_HttpOnceTransport (VArr elems) fresh))) = [].
Proof. split; reflexivity. Qed.

(** The route refuses the same array before a transport exists. *)
Lemma post_mcp_array :
  post_mcp (server_callbacks sample_env) (VArr [request (VNum 1) "tools/list"]) arriving
  = (Normal Fulfilled, refused 400 (route_error (-32600) jsonrpc_must_be_2_0 [] VNull)).
Proof. reflexivity. Qed.

(* ===================================================================== *)
(** ** Running the methods of the transport *)
(* ===================================================================== *)

Lemma run_bind {S A B} (m : js S A) (f : A -> js S B) (s : S) :
  bind m f s = match m s with
               | (Normal a, s') => f a s'
               | (Throw e, s') => (Throw e, s')
               end.
Proof. reflexivity. Qed.

Lemma run_get {S B} (f : S -> js S B) (s : S) : bind get f s = f s s.
Proof. reflexivity. Qed.

Lemma run_ret {S A B} (a : A) (f : A -> js S B) (s : S) : bind (ret a) f s = f a s.
Proof. reflexivity. Qed.

Lemma run_modify {S B} (g : S -> S) (f : unit -> js S B) (s : S) :
  bind (modify g) f s = f tt (g s).
Proof. reflexivity. Qed.

Lemma run_member {S B} (o : value) (k : string) (f : value -> js S B) (s : S) :
  is_nullish o = false -> (k =? "length")%string = false ->
  bind (member o k) f s = f (prop o k) s.
Proof. intros Ho Hk. rewrite bind_member by assumption. reflexivity. Qed.

Lemma run_opt_member {S B} (o : value) (k : string) (f : value -> js S B) (s : S) :
  (k =? "length")%string = false -> bind (opt_member o k) f s = f (prop o k) s.
Proof. intros Hk. unfold bind. rewrite opt_member_prop by exact Hk. reflexivity. Qed.

Lemma run_is_complete_response {S B} (message : value) (f : bool -> js S B) (s : S) :
  bind (is_complete_response message) f s = f (complete message) s.
Proof.
  unfold is_complete_response, complete. destruct (truthy message) eqn:Tm; [| reflexivity].
  pose proof (truthy_not_nullish _ Tm) as Hn.
  rewrite bind_member by (exact Hn || reflexivity). simpl andb.
  destruct (truthy (prop message "jsonrpc")); [| reflexivity].
  rewrite bind_member by (exact Hn || reflexivity). reflexivity.
Qed.

Lemma run_stringify_for_log {S B} (v : value) (f : unit -> js S B) (s : S) :
  bind (stringify_for_log v) f s
  = if serializable v then f tt s
    else (Throw (JsError "TypeError" "Do not know how to serialize a BigInt"), s).
Proof. unfold bind, stringify_for_log. destruct (serializable v); reflexivity. Qed.

(** [this.res.status(code).json(body)] on a transport. *)
Lemma run_json (code : Z) (body : value) (t : HttpOnceTransport) :
  on_res (status code ;; json body) t
  = if serializable body then
      if headersSent (res t) then
        (Throw (JsError "Error" "Cannot set headers after they are sent to the client"),
         with_res {| statusCode := code; headersSent := true; wire := wire (res t) |} t)
      else (Normal tt, wrote code (Some body) t)
    else
      (Throw (JsError "TypeError" "Do not know how to serialize a BigInt"),
       with_res {| statusCode := code; headersSent := headersSent (res t);
                   wire := wire (res t) |} t).
Proof.
  unfold on_res, zoom, bind, status, modify, json, wrote. simpl.
  destruct (serializable body); simpl; [| reflexivity].
  destruct (headersSent (res t)); reflexivity.
Qed.

(** [this.res.status(code).end()] on a transport. *)
Lemma run_end (code : Z) (t : HttpOnceTransport) :
  on_res (status code ;; end_) t
  = if headersSent (res t) then
      (Normal tt,
       with_res {| statusCode := code; headersSent := true; wire := wire (res t) |} t)
    else (Normal tt, wrote code None t).
Proof.
  unfold on_res, zoom, bind, status, modify, end_, wrote. simpl.
  destruct (headersSent (res t)); reflexivity.
Qed.

Lemma serializable_response_of (t : HttpOnceTransport) (message : value) :
  serializable (inbound_id t) = true ->
  serializable (response_of t message) = serializable message.
Proof.
  intros H. unfold response_of. destruct (complete message); [reflexivity |].
  simpl. rewrite H. simpl. apply andb_true_r.
Qed.

(** The try statement of [send] on a response whose headers are not sent:
    it writes the message, or the wrapped result, or the fallback, and
    fires the completion signal. *)
Lemma send_try_unsent (message : value) (t : HttpOnceTransport) :
  headersSent (res t) = false ->
  serializable (inbound_id t) = true ->
  send_try message t
  = (Normal tt,
     snd (responseResolve
            (wrote (fst (answer_of t message)) (Some (snd (answer_of t message))) t))).
Proof.
  intros Hs Sid.
  assert (Sf : serializable (fallback_of t) = true).
  { unfold fallback_of. simpl. rewrite Sid. reflexivity. }
  pose proof (serializable_response_of t message Sid) as Sr.
  unfold answer_of. rewrite Sr.
  unfold send_try, try_finally, try_catch.
  rewrite run_get. rewrite run_is_complete_response.
  unfold response_of in *. unfold inbound_id in *.
  destruct (complete message).
  - rewrite run_stringify_for_log. destruct (serializable message) eqn:Sm.
    + rewrite run_json, Sm, Hs. reflexivity.
    + rewrite run_get. rewrite Hs. cbv beta iota delta [negb].
      rewrite run_opt_member by reflexivity.
      change (error_response (or_null (prop (inbound t) "id")) (-32603) "Internal error")
        with (fallback_of t).
      rewrite run_json, Sf, Hs. reflexivity.
  - rewrite run_opt_member by reflexivity. cbv zeta.
    rewrite run_stringify_for_log. rewrite Sr.
    destruct (serializable message) eqn:Sm.
    + rewrite run_json, Sr, Hs. reflexivity.
    + rewrite run_get. rewrite Hs. cbv beta iota delta [negb].
      rewrite run_opt_member by reflexivity.
      change (error_response (or_null (prop (inbound t) "id")) (-32603) "Internal error")
        with (fallback_of t).
      rewrite run_json, Sf, Hs. reflexivity.
Qed.

(** The same statement once the headers are sent: the write fails, the
    failure is caught, the fallback is skipped; only the status code of the
    response object and the completion signal change. *)
Lemma send_try_sent (message : value) (t : HttpOnceTransport) :
  headersSent (res t) = true ->
  exists code,
    send_try message t
    = (Normal tt,
       snd (responseResolve
              (with_res {| statusCode := code; headersSent := true; wire := wire (res t) |} t))).
Proof.
  intros Hs.
  unfold send_try, try_finally, try_catch.
  rewrite run_get. rewrite run_is_complete_response.
  destruct (complete message).
  - rewrite run_stringify_for_log. destruct (serializable message) eqn:Sm.
    + rewrite run_json, Sm, Hs. rewrite run_get. simpl. eexists. reflexivity.
    + rewrite run_get. rewrite Hs. simpl. exists (statusCode (res t)).
      destruct t as [inb [sc hs w] rsp rsv dl rt cl wn]. simpl in *. subst hs. reflexivity.
  - rewrite run_opt_member by reflexivity. cbv zeta.
    rewrite run_stringify_for_log.
    destruct (serializable _) eqn:Sm.
    + rewrite run_json, Sm, Hs. rewrite run_get. simpl. eexists. reflexivity.
    + rewrite run_get. rewrite Hs. simpl. exists (statusCode (res t)).
      destruct t as [inb [sc hs w] rsp rsv dl rt cl wn]. simpl in *. subst hs. reflexivity.
Qed.

Lemma send_unanswered (message : value) (t : HttpOnceTransport) :
  responded t = false -> send message t = send_try message (snd (set_responded t)).
Proof. intros H. unfold send. rewrite run_get, H. reflexivity. Qed.

(** [close()] in full. *)
Lemma run_close (cb : callbacks) (t : HttpOnceTransport) :
  close cb t
  = (Normal tt,
     snd ((if onclose cb then log_closed else ret tt)
            (if negb (responded t) && negb (headersSent (res t))
             then snd (responseResolve (wrote 204 None t)) else t))).
Proof.
  unfold close. rewrite run_get.
  destruct (negb (responded t) && negb (headersSent (res t))) eqn:E.
  - apply andb_true_iff in E as [_ E]. apply negb_true_iff in E.
    unfold bind at 1. unfold bind at 1. rewrite run_end, E.
    destruct (onclose cb); reflexivity.
  - unfold bind at 1. destruct (onclose cb); reflexivity.
Qed.

(** *** The transport between two calls *)

Lemma fresh_settled (inbound : value) : settled (new_HttpOnceTransport inbound fresh).
Proof.
  unfold settled, exact; simpl. repeat split; try discriminate; try lia; reflexivity.
Qed.

Lemma send_settled (message : value) (t : HttpOnceTransport) :
  serializable (inbound_id t) = true ->
  settled t ->
  fst (send message t) = Normal tt
  /\ settled (snd (send message t))
  /\ inbound (snd (send message t)) = inbound t.
Proof.
  intros Sid (Hex & Hiff & Hresp).
  destruct (responded t) eqn:R.
  - rewrite (send_when_responded message t R).
    unfold settled, exact in *; simpl. rewrite R.
    repeat split; try apply Hiff; try assumption; intros; apply Hresp; reflexivity.
  - rewrite (send_unanswered message t R).
    destruct (headersSent (res t)) eqn:Hs.
    + destruct (send_try_sent message (snd (set_responded t))) as (code & E);
        [exact Hs |].
      rewrite E. unfold settled, exact in *; simpl. rewrite Hs in Hex.
      repeat split; try assumption; try reflexivity; intros; lia.
    + rewrite (send_try_unsent message (snd (set_responded t)) Hs Sid).
      unfold settled, exact in *; simpl. rewrite Hs in Hex. rewrite Hex.
      repeat split; try reflexivity; intros; lia.
Qed.

Lemma close_settled (cb : callbacks) (t : HttpOnceTransport) :
  settled t ->
  fst (close cb t) = Normal tt
  /\ settled (snd (close cb t))
  /\ inbound (snd (close cb t)) = inbound t.
Proof.
  intros (Hex & Hiff & Hresp). rewrite run_close.
  destruct (responded t) eqn:R; destruct (headersSent (res t)) eqn:Hs;
    unfold settled, exact in *; simpl; destruct (onclose cb); simpl;
    rewrite ?R, ?Hs; rewrite ?Hs in Hex; rewrite ?Hex;
    repeat split; try assumption; try reflexivity; intros; try lia; try discriminate;
    try (apply Hiff; assumption); try (apply Hresp; assumption).
Qed.

Lemma calls_settled (cb : callbacks) (cs : list call) (t : HttpOnceTransport) :
  serializable (inbound_id t) = true ->
  settled t ->
  fst (for_of cs (run_call cb) t) = Normal tt
  /\ settled (snd (for_of cs (run_call cb) t))
  /\ inbound (snd (for_of cs (run_call cb) t)) = inbound t.
Proof.
  revert t. induction cs as [| c rest IH]; intros t Sid St; simpl.
  - split; [reflexivity | split; [exact St | reflexivity]].
  - unfold bind.
    assert (H : fst (run_call cb c t) = Normal tt
                /\ settled (snd (run_call cb c t))
                /\ inbound (snd (run_call cb c t)) = inbound t).
    { destruct c; simpl; unfold detached; simpl.
      - split; [reflexivity | apply send_settled; assumption].
      - split; [reflexivity | apply close_settled; assumption]. }
    destruct (run_call cb c t) as [r t1]. simpl in H. destruct H as (-> & St1 & I1).
    assert (Sid1 : serializable (inbound_id t1) = true)
      by (unfold inbound_id in *; rewrite I1; exact Sid).
    destruct (IH t1 Sid1 St1) as (F & S2 & I2).
    split; [exact F | split; [exact S2 | rewrite I2; exact I1]].
Qed.

Lemma send_unanswered_resolves (message : value) (t : HttpOnceTransport) :
  responded t = false ->
  serializable (inbound_id t) = true ->
  resolved (snd (send message t)) = S (resolved t).
Proof.
  intros R Sid. rewrite (send_unanswered message t R).
  destruct (headersSent (res t)) eqn:Hs.
  - destruct (send_try_sent message (snd (set_responded t)) Hs) as (code & E).
    rewrite E. reflexivity.
  - rewrite (send_try_unsent message (snd (set_responded t)) Hs Sid). reflexivity.
Qed.

(** [sendError(code, message, id)] in full. *)
Lemma run_sendError (code : Z) (message : string) (id : value) (t : HttpOnceTransport) :
  sendError code message id t
  = if responded t then (Normal tt, t)
    else if serializable id then
      if headersSent (res t) then
        (Throw (JsError "Error" "Cannot set headers after they are sent to the client"),
         with_res {| statusCode := 200; headersSent := true; wire := wire (res t) |}
           (snd (set_responded t)))
      else
        (Normal tt,
         snd (responseResolve
                (wrote 200 (Some (error_response id code message)) (snd (set_responded t)))))
    else
      (Throw (JsError "TypeError" "Do not know how to serialize a BigInt"),
       with_res {| statusCode := 200; headersSent := headersSent (res t);
                   wire := wire (res t) |}
         (snd (set_responded t))).
Proof.
  unfold sendError. rewrite run_get. destruct (responded t); [reflexivity |].
  unfold set_responded at 1. rewrite run_modify. rewrite run_bind, run_json.
  assert (E : serializable (error_response id code message) = serializable id)
    by (simpl; rewrite andb_true_r; reflexivity).
  rewrite E. destruct (serializable id); [| reflexivity].
  simpl. destruct (headersSent (res t)); reflexivity.
Qed.

Lemma sendError_settled (code : Z) (message : string) (id : value) (t : HttpOnceTransport) :
  serializable id = true ->
  settled t ->
  settled (snd (sendError code message id t))
  /\ inbound (snd (sendError code message id t)) = inbound t
  /\ headersSent (res (snd (sendError code message id t))) = true
  /\ (responded t = false -> headersSent (res t) = false ->
      fst (sendError code message id t) = Normal tt).
Proof.
  intros Sid (Hex & Hiff & Hresp). rewrite run_sendError, Sid.
  destruct (responded t) eqn:R; destruct (headersSent (res t)) eqn:Hs;
    unfold settled, exact in *; simpl; rewrite ?R, ?Hs; rewrite ?Hs in Hex; rewrite ?Hex;
    repeat split; try assumption; try reflexivity; intros; try lia; try discriminate;
    try (apply Hiff; assumption); try (apply Hresp; assumption).
Qed.

Lemma run_in_op_obj {S B} (k : string) (props : list (string * value))
  (f : bool -> js S B) (s : S) :
  bind (in_op k (VObj props)) f s
  = f (match assoc props k with Some _ => true | None => false end) s.
Proof. reflexivity. Qed.

Lemma run_in_op_arr {S B} (k : string) (elems : list value) (f : bool -> js S B) (s : S) :
  bind (in_op k (VArr elems)) f s = f (k =? "length")%string s.
Proof. reflexivity. Qed.

Lemma settled_same (t t' : HttpOnceTransport) :
  res t' = res t -> resolved t' = resolved t -> responded t' = responded t ->
  settled t -> settled t'.
Proof. unfold settled. intros -> -> ->. exact (fun H => H). Qed.

Lemma serializable_inbound_id (t : HttpOnceTransport) :
  serializable (inbound t) = true -> serializable (inbound_id t) = true.
Proof. intros H. apply serializable_or_null, serializable_prop. exact H. Qed.

(** The two blocks of [start], each with what it guarantees.  The catch
    block, entered between two calls with a message that is not nullish,
    leaves a response on the wire.  The try block, entered before anything
    was written, ends pending exactly when nothing has been written. *)
Lemma start_blocks (cb : callbacks) :
  exists body handler,
    start cb = try_catch body handler
    /\ (forall e t,
          is_nullish (inbound t) = false ->
          serializable (inbound t) = true ->
          settled t ->
          settled (snd (handler e t))
          /\ inbound (snd (handler e t)) = inbound t
          /\ headersSent (res (snd (handler e t))) = true
          /\ fst (handler e t) <> Normal Pending)
    /\ (forall t,
          is_nullish (inbound t) = false ->
          serializable (inbound t) = true ->
          settled t -> responded t = false -> headersSent (res t) = false ->
          settled (snd (body t))
          /\ inbound (snd (body t)) = inbound t
          /\ match fst (body t) with
             | Normal Pending => headersSent (res (snd (body t))) = false
             | Normal Fulfilled => headersSent (res (snd (body t))) = true
             | Throw _ => True
             end).
Proof.
  unfold start. eexists. eexists. split; [reflexivity |]. split.
  - (* the catch block *)
    intros e t Hn Hser St.
    assert (K : forall t1 : HttpOnceTransport,
               inbound t1 = inbound t -> settled t1 ->
               let r := (t2 <- get ;;
                         if negb (responded t2) then
                           id <- member (inbound t2) "id" ;;
                           sendError (-32603) "Internal error" (or_null id) ;;
                           ret Fulfilled
                         else ret Fulfilled) t1 in
               settled (snd r) /\ inbound (snd r) = inbound t
               /\ headersSent (res (snd r)) = true /\ fst r <> Normal Pending).
    { intros t1 I1 St1. cbv zeta. rewrite run_get.
      destruct (responded t1) eqn:R; cbv beta iota delta [negb].
      - simpl. split; [exact St1 | split; [exact I1 | split; [| discriminate]]].
        apply St1. exact R.
      - rewrite I1. rewrite run_member by (exact Hn || reflexivity). rewrite run_bind.
        destruct (sendError_settled (-32603) "Internal error"
                    (or_null (prop (inbound t) "id")) t1
                    (serializable_inbound_id t Hser) St1) as (S2 & I2 & H2 & _).
        destruct (sendError _ _ _ t1) as [[[] | e'] t2]; simpl in *;
          (split; [exact S2 | split; [congruence | split; [exact H2 | discriminate]]]). }
    rewrite run_bind. destruct (onerror cb).
    + unfold log_routed. unfold modify at 1. apply K; [reflexivity |].
      eapply settled_same; [ | | | exact St]; reflexivity.
    + unfold ret at 1. apply K; [reflexivity | exact St].
  - (* the try block *)
    intros t Hn Hser St R Hs.
    pose proof (serializable_inbound_id t Hser) as Sid.
    match goal with
    | |- context [snd (?body t)] => destruct (body t) as [c t'] eqn:E
    end.
    cbv beta iota delta [fst snd].
    rewrite run_get in E.
    destruct (inbound t) as [ | | b | n | n | s | elems | props] eqn:Ei;
      try discriminate.
    + (* a boolean *)
      rewrite orb_true_r in E. injection E as <- <-.
      split; [exact St | split; [exact Ei | exact I]].
    + (* a number *)
      rewrite orb_true_r in E. injection E as <- <-.
      split; [exact St | split; [exact Ei | exact I]].
    + (* a string *)
      rewrite orb_true_r in E. injection E as <- <-.
      split; [exact St | split; [exact Ei | exact I]].
    + (* an array: no id, no method *)
      change (negb (truthy (VArr elems)) || negb (typeof_object (VArr elems))) with false in E.
      cbv iota in E.
      rewrite run_in_op_arr in E. cbv zeta in E.
      rewrite run_member in E by reflexivity. cbv beta iota delta [prop str_eq] in E.
      rewrite run_member in E by reflexivity.
      change ("id" =? "length")%string with false in E.
      cbv beta iota delta [prop truthy negb andb orb] in E. rewrite run_bind in E.
      destruct (sendError_settled (-32600) "Invalid Request" VNull t eq_refl St)
        as (S2 & I2 & H2 & N2).
      specialize (N2 R Hs).
      destruct (sendError _ _ _ t) as [c2 t2]; simpl in *. subst c2.
      injection E as <- <-.
      split; [exact S2 | split; [congruence | exact H2]].
    + (* an object *)
      change (negb (truthy (VObj props)) || negb (typeof_object (VObj props))) with false in E.
      cbv iota in E.
      rewrite run_in_op_obj in E. cbv zeta in E.
      rewrite run_member in E by reflexivity.
      set (method := prop (VObj props) "method") in E.
      set (has_id := match assoc props "id" with Some _ => true | None => false end) in E.
      assert (Answered : forall message,
                 (send message ;; ret Fulfilled) t = (c, t') ->
                 settled t' /\ inbound t' = VObj props
                 /\ match c with
                    | Normal Pending => headersSent (res t') = false
                    | Normal Fulfilled => headersSent (res t') = true
                    | Throw _ => True
                    end).
      { intros message E1. rewrite run_bind in E1.
        destruct (send_settled message t Sid St) as (F & S2 & I2).
        pose proof (send_unanswered_resolves message t R Sid) as Rs.
        destruct (send message t) as [c2 t2]; simpl in *. subst c2.
        injection E1 as <- <-.
        split; [exact S2 | split; [congruence |]].
        pose proof S2 as (_ & Hiff2 & _). apply Hiff2. lia. }
      assert (Refused :
                 (sendError (-32600) "Invalid Request" VNull ;; ret Fulfilled) t = (c, t') ->
                 settled t' /\ inbound t' = VObj props
                 /\ match c with
                    | Normal Pending => headersSent (res t') = false
                    | Normal Fulfilled => headersSent (res t') = true
                    | Throw _ => True
                    end).
      { intros E1. rewrite run_bind in E1.
        destruct (sendError_settled (-32600) "Invalid Request" VNull t eq_refl St)
          as (S2 & I2 & H2 & N2).
        specialize (N2 R Hs).
        destruct (sendError _ _ _ t) as [c2 t2]; simpl in *. subst c2.
        injection E1 as <- <-.
        split; [exact S2 | split; [congruence | exact H2]]. }
      assert (Await : forall t2 : HttpOnceTransport,
                 settled t2 -> inbound t2 = VObj props ->
                 await_responsePromise t2 = (c, t') ->
                 settled t' /\ inbound t' = VObj props
                 /\ match c with
                    | Normal Pending => headersSent (res t') = false
                    | Normal Fulfilled => headersSent (res t') = true
                    | Throw _ => True
                    end).
      { intros t2 S2 I2 E1. unfold await_responsePromise in E1. rewrite run_get in E1.
        injection E1 as <- <-.
        split; [exact S2 | split; [exact I2 |]].
        destruct S2 as (_ & Hiff & _).
        destruct (resolved t2) eqn:Rv.
        - destruct (headersSent (res t2)); [| reflexivity].
          assert (0 < 0)%nat by (apply Hiff; reflexivity). lia.
        - apply Hiff. lia. }
      destruct (str_eq method "initialize") eqn:M1.
      { (* initialize *)
        rewrite run_member in E by reflexivity.
        rewrite run_opt_member in E by reflexivity.
        rewrite run_stringify_for_log in E.
        assert (Sci : serializable (prop (prop (VObj props) "params") "clientInfo") = true)
          by (do 2 apply serializable_prop; exact Hser).
        rewrite Sci in E. rewrite run_member in E by reflexivity. cbv zeta in E.
        exact (Answered _ E). }
      destruct (str_eq method "notifications/initialized") eqn:M2.
      { (* notifications/initialized *)
        unfold set_responded in E. rewrite run_modify in E.
        rewrite run_bind, run_end in E. simpl in E. rewrite Hs in E.
        injection E as <- <-.
        destruct St as (Hex & Hiff & Hresp). unfold exact in Hex. rewrite Hs in Hex.
        unfold settled, exact. simpl. rewrite Hex.
        repeat split; try reflexivity; try assumption; intros; try lia. }
      destruct (str_eq method "ping") eqn:M3.
      { (* ping *)
        rewrite run_member in E by reflexivity. cbv zeta in E.
        exact (Answered _ E). }
      rewrite run_member in E by reflexivity.
      destruct (negb (negb has_id)
                && (negb (truthy (prop (VObj props) "jsonrpc")) || negb (truthy method)));
        [exact (Refused E) |].
      destruct (negb has_id && negb (truthy method)); [exact (Refused E) |].
      (* forwarded to the engine *)
      rewrite run_bind in E.
      destruct (onmessage cb) as [handler |].
      * unfold call_onmessage in E. unfold log_delivered in E. rewrite run_modify in E.
        rewrite run_bind in E.
        match type of E with
        | context [for_of ?cs (run_call cb) ?t1] =>
            destruct (calls_settled cb cs t1) as (F & S2 & I2);
              [ exact Sid
              | eapply settled_same; [ | | | exact St]; reflexivity
              | destruct (for_of cs (run_call cb) t1) as [c2 t2] ]
        end.
        simpl in F, S2, I2. subst c2. rewrite Ei in I2.
        destruct (raises (handler (VObj props))).
        -- injection E as <- <-. split; [exact S2 | split; [exact I2 | exact I]].
        -- exact (Await t2 S2 I2 E).
      * exact (Await t St Ei E).
Qed.

Lemma exact_sent (r : Response) : exact r -> headersSent r = true -> List.length (wire r) = 1%nat.
Proof. unfold exact. intros H E. rewrite E in H. exact H. Qed.

Lemma exact_unsent (r : Response) : exact r -> headersSent r = false -> wire r = [].
Proof. unfold exact. intros H E. rewrite E in H. exact H. Qed.

(** [start()] on a fresh transport, in terms of its two blocks. *)
Lemma start_fresh (cb : callbacks) (inb : value) :
  is_nullish inb = false ->
  serializable inb = true ->
  settled (snd (start cb (new_HttpOnceTransport inb fresh)))
  /\ inbound (snd (start cb (new_HttpOnceTransport inb fresh))) = inb
  /\ match fst (start cb (new_HttpOnceTransport inb fresh)) with
     | Normal Pending =>
         headersSent (res (snd (start cb (new_HttpOnceTransport inb fresh)))) = false
     | _ => headersSent (res (snd (start cb (new_HttpOnceTransport inb fresh)))) = true
     end.
Proof.
  intros Hn Hser.
  destruct (start_blocks cb) as (body & handler & E & Hh & Hb).
  rewrite E. unfold try_catch.
  specialize (Hb (new_HttpOnceTransport inb fresh) Hn Hser (fresh_settled inb) eq_refl eq_refl).
  destruct (body (new_HttpOnceTransport inb fresh)) as [[p | e] t1]; simpl in Hb.
  - destruct Hb as (S1 & I1 & H1). simpl.
    split; [exact S1 | split; [exact I1 |]]. destruct p; exact H1.
  - destruct Hb as (S1 & I1 & _).
    assert (Hn1 : is_nullish (inbound t1) = false) by (rewrite I1; exact Hn).
    assert (Hser1 : serializable (inbound t1) = true) by (rewrite I1; exact Hser).
    destruct (Hh e t1 Hn1 Hser1 S1) as (S2 & I2 & H2 & N2).
    destruct (handler e t1) as [c t2]; simpl in *.
    split; [exact S2 | split; [congruence |]].
    destruct c as [[] |]; try exact H2. exfalso. apply N2. reflexivity.
Qed.

(* ===================================================================== *)
(** ** Further properties of the transport and of the route *)
(* ===================================================================== *)

(** [send()] on a transport that has neither answered nor sent anything,
    bound to a JSON message: it returns normally, sets the responded flag,
    fires the completion signal once and leaves one response behind: the
    message as it is when it is a complete response, the message wrapped as
    a result otherwise, and -- when that cannot be serialized -- HTTP 500
    with an Internal error body under the request id. *)
Theorem send_leaves_one_answer (message : value) (t : HttpOnceTransport) :
  responded t = false ->
  headersSent (res t) = false ->
  serializable (inbound t) = true ->
  fst (send message t) = Normal tt
  /\ responded (snd (send message t)) = true
  /\ resolved (snd (send message t)) = S (resolved t)
  /\ wire (res (snd (send message t)))
     = (wire (res t)
        ++ [(fst (answer_of t message), Some (snd (answer_of t message)))])%list
  /\ answer_of t message
     = if serializable message then
         (200, if complete message then message
               else VObj [("jsonrpc", VStr "2.0"); ("id", inbound_id t);
                          ("result", message)])
       else (500, error_response (inbound_id t) (-32603) "Internal error").
Proof.
  intros R Hs Hser. pose proof (serializable_inbound_id t Hser) as Sid.
  rewrite (send_unanswered message t R).
  rewrite (send_try_unsent message (snd (set_responded t)) Hs Sid).
  split; [reflexivity |]. split; [reflexivity |]. split; [reflexivity |].
  split; [reflexivity |].
  unfold answer_of. rewrite (serializable_response_of t message Sid).
  destruct (serializable message); reflexivity.
Qed.

(** A result holding a BigInt, sent for the request with id 7. *)
Lemma send_leaves_one_answer_witness :
  wire (res (snd (send (VObj [("count", VBigInt 1)])
                    (new_HttpOnceTransport (request (VNum 7) "tools/call") fresh))))
  = [(500, Some (error_response (VNum 7) (-32603) "Internal error"))].
Proof.
  destruct (send_leaves_one_answer (VObj [("count", VBigInt 1)])
              (new_HttpOnceTransport (request (VNum 7) "tools/call") fresh))
    as (_ & _ & _ & W & A); [reflexivity | reflexivity | reflexivity |].
  rewrite W, A. reflexivity.
Defined.

(** Whatever the engine calls on a fresh transport bound to a JSON
    message, and in whatever order -- any sequence of [send] and [close] --
    between two calls the completion signal has fired exactly when one
    response is on the wire, nothing is on the wire before, and a set
    responded flag means the response is out. *)
Theorem completion_signal_tracks_the_wire
  (cb : callbacks) (inb : value) (cs : list call) :
  serializable inb = true ->
  let t := snd (for_of cs (run_call cb) (new_HttpOnceTransport inb fresh)) in
  ((0 < resolved t)%nat -> List.length (wire (res t)) = 1%nat)
  /\ (resolved t = 0%nat -> wire (res t) = [])
  /\ (responded t = true -> List.length (wire (res t)) = 1%nat)
  /\ inbound t = inb.
Proof.
  intros Hser t.
  destruct (calls_settled cb cs (new_HttpOnceTransport inb fresh))
    as (_ & (Hex & Hiff & Hresp) & I).
  { apply serializable_inbound_id. exact Hser. }
  { apply fresh_settled. }
  fold t in Hex, Hiff, Hresp, I.
  split; [| split; [| split; [| exact I]]].
  - intros H. apply exact_sent; [exact Hex | apply Hiff; exact H].
  - intros H. apply exact_unsent; [exact Hex |].
    destruct (headersSent (res t)); [| reflexivity].
    assert (0 < resolved t)%nat by (apply Hiff; reflexivity). lia.
  - intros H. apply exact_sent; [exact Hex | apply Hresp; exact H].
Qed.

(** close, send, send, close on a request with id 1. *)
Lemma completion_signal_tracks_the_wire_witness :
  List.length
    (wire (res (snd (for_of [CallClose; CallSend (VStr "late"); CallSend (VStr "later");
                             CallClose]
                       (run_call no_callbacks) tools_list_transport)))) = 1%nat.
Proof.
  destruct (completion_signal_tracks_the_wire no_callbacks (request (VNum 1) "tools/list")
              [CallClose; CallSend (VStr "late"); CallSend (VStr "later"); CallClose])
    as (_ & _ & H & _); [reflexivity |].
  apply H. reflexivity.
Defined.

(** [start()] on a fresh transport bound to any JSON message that is not
    null, with any engine: when it is still pending, nothing has been
    written and the completion signal has not fired; when it has returned
    or thrown, exactly one response is on the wire and the signal has
    fired. *)
Theorem start_pending_iff_nothing_written (cb : callbacks) (inb : value) :
  is_nullish inb = false ->
  serializable inb = true ->
  let r := start cb (new_HttpOnceTransport inb fresh) in
  (fst r = Normal Pending -> wire (res (snd r)) = [] /\ resolved (snd r) = 0%nat)
  /\ (fst r <> Normal Pending ->
      List.length (wire (res (snd r))) = 1%nat /\ (0 < resolved (snd r))%nat).
Proof.
  intros Hn Hser r.
  destruct (start_fresh cb inb Hn Hser) as ((Hex & Hiff & _) & _ & H).
  fold r in Hex, Hiff, H. split.
  - intros E. rewrite E in H. split; [apply exact_unsent; assumption |].
    destruct (resolved (snd r)) eqn:Rv; [reflexivity |].
    assert (headersSent (res (snd r)) = true) by (apply Hiff; lia). congruence.
  - intros N.
    assert (Hs : headersSent (res (snd r)) = true).
    { destruct (fst r) as [[] |]; try exact H. exfalso. apply N. reflexivity. }
    split; [apply exact_sent; assumption | apply Hiff; exact Hs].
Qed.

(** An engine that closes the transport and then throws: [start] rejects,
    with the 204 as the only response. *)
Lemma start_pending_iff_nothing_written_witness :
  List.length
    (wire (res (snd (start
                       {| onmessage :=
                            Some (fun _ => {| calls := [CallClose];
                                              raises := Some (JsError "Error" "boom") |});
                          onerror := true; onclose := true |}
                       tools_list_transport)))) = 1%nat.
Proof.
  apply (start_pending_iff_nothing_written
           {| onmessage :=
                Some (fun _ => {| calls := [CallClose];
                                  raises := Some (JsError "Error" "boom") |});
              onerror := true; onclose := true |}
           (request (VNum 1) "tools/list")); try reflexivity.
  vm_compute. discriminate.
Defined.

(** The route, on any JSON body and with any engine, never throws at
    Express: what its log lines, its validation, the construction of the
    transport or [start] throw is caught and answered 500 unless a
    response is out already.  When its handler has returned, exactly one
    response is on the wire; while it is still waiting for the engine, a
    transport exists and nothing has been written. *)
Theorem post_mcp_ends_with_one_response (cb : callbacks) (inb : value) :
  serializable inb = true ->
  exists p x,
    post_mcp cb inb arriving = (Normal p, x)
    /\ match p with
       | Fulfilled => one_response x
       | Pending => wire (response x) = [] /\ exists t, adapter x = Some t
       end.
Proof.
  intros Hser. destruct (truthy inb) eqn:T.
  - destruct (loggable inb) eqn:Hlog;
      [| rewrite (post_mcp_unloggable cb inb T Hser Hlog);
         exists Fulfilled; eexists; split; reflexivity].
    destruct (negb (str_eq (prop inb "jsonrpc") "2.0") || negb (truthy (prop inb "method")))
      eqn:Bad.
    + destruct (post_mcp_invalid cb inb T Hser Hlog Bad) as (message & E).
      exists Fulfilled. eexists. split; [exact E | reflexivity].
    + apply orb_false_iff in Bad as [B1 B2].
      apply negb_false_iff in B1. apply negb_false_iff in B2.
      apply andb_prop in Hlog. destruct Hlog as [Lm Li].
      pose proof (truthy_not_nullish _ T) as Hn.
      unfold post_mcp. rewrite T. cbv beta iota delta [negb].
      rewrite bind_stringify_for_log by exact Hser.
      rewrite bind_member by (assumption || reflexivity).
      rewrite bind_to_string_for_log by exact Lm.
      rewrite bind_member by (assumption || reflexivity).
      rewrite bind_to_string_for_log by exact Li.
      rewrite bind_member by (assumption || reflexivity).
      rewrite B1, (str_eq_truthy _ B1). cbv beta iota delta [negb orb].
      rewrite bind_member by (assumption || reflexivity).
      rewrite B2. cbv beta iota delta [negb].
      unfold try_catch, connect. simpl response.
      destruct (start_fresh cb inb Hn Hser) as ((Hex & Hiff & Hresp) & I & H).
      destruct (start cb (new_HttpOnceTransport inb fresh)) as [[p | e] t1]; simpl in *.
      * exists p. eexists. split; [reflexivity |].
        destruct p; simpl.
        -- apply exact_sent; assumption.
        -- split; [apply exact_unsent; assumption | eexists; reflexivity].
      * rewrite run_get. simpl. rewrite H. simpl.
        exists Fulfilled. eexists. split; [reflexivity |].
        apply exact_sent; assumption.
  - rewrite (post_mcp_falsy cb inb T).
    exists Fulfilled. eexists. split; reflexivity.
Qed.

(** An engine that never answers: the route is left waiting. *)
Lemma post_mcp_ends_with_one_response_witness :
  exists p x,
    post_mcp {| onmessage := Some (fun _ => {| calls := []; raises := None |});
                onerror := true; onclose := true |}
      (request (VNum 1) "tools/list") arriving = (Normal p, x)
    /\ match p with
       | Fulfilled => one_response x
       | Pending => wire (response x) = [] /\ exists t, adapter x = Some t
       end.
Proof.
  apply (post_mcp_ends_with_one_response
           {| onmessage := Some (fun _ => {| calls := []; raises := None |});
              onerror := true; onclose := true |}
           (request (VNum 1) "tools/list")).
  reflexivity.
Defined.

(* ===================================================================== *)
(** ** The bearer-token middleware *)
(* ===================================================================== *)

Lemma prefix_substring_from (p s : string) :
  String.prefix p s = true -> s = p ++ substring_from (String.length p) s.
Proof.
  revert s. induction p as [| a p IH]; intros s H.
  - reflexivity.
  - destruct s as [| b s]; [discriminate |].
    cbn [String.prefix] in H.
    destruct (Ascii.ascii_dec a b) as [Eab | Nab]; [subst b | discriminate].
    cbn [String.length substring_from String.append]. f_equal. apply IH. exact H.
Qed.

Lemma bearer_header (token authHeader : string) :
  authHeader = "Bearer " ++ token
  <-> ((authHeader =? EmptyString)%string || negb (startsWith authHeader "Bearer ") = false
       /\ (substring_from 7 authHeader =? token)%string = true).
Proof.
  split.
  - intros ->. split.
    + simpl. destruct token; reflexivity.
    + simpl. apply String.eqb_refl.
  - intros [H1 H2]. apply orb_false_iff in H1 as [_ H1]. apply negb_false_iff in H1.
    apply String.eqb_eq in H2. unfold startsWith in H1.
    rewrite (prefix_substring_from _ _ H1). simpl String.length. rewrite H2. reflexivity.
Qed.

Lemma not_health (path : string) : (path =? "/health")%string = false -> path <> "/health".
Proof. intros H. apply String.eqb_neq. exact H. Qed.

(** The three outcomes of the middleware on a response still untouched. *)
Lemma auth_middleware_outcome (token path : string) (authorization : option string) :
  (authorized token path authorization
   /\ auth_middleware token path authorization fresh = (Normal Next, fresh))
  \/ (~ authorized token path authorization
      /\ auth_middleware token path authorization fresh
         = (Normal Ended,
            answered_with 401
              (route_error (-32001) "Missing or invalid authorization header" [] VNull)))
  \/ (~ authorized token path authorization
      /\ auth_middleware token path authorization fresh
         = (Normal Ended, answered_with 403 (route_error (-32002) "Invalid token" [] VNull))).
Proof.
  unfold auth_middleware, authorized.
  destruct (path =? "/health")%string eqn:P.
  - left. split; [left; apply String.eqb_eq; exact P | reflexivity].
  - pose proof (not_health _ P) as NP.
    destruct authorization as [a |].
    + destruct ((a =? EmptyString)%string || negb (startsWith a "Bearer ")) eqn:C1.
      * right. left. split; [| reflexivity].
        intros [H | H]; [exact (NP H) |]. injection H as H.
        apply bearer_header in H as [H _]. congruence.
      * destruct (substring_from 7 a =? token)%string eqn:C2.
        -- left. split; [| reflexivity]. right. f_equal.
           apply bearer_header. split; assumption.
        -- right. right. split; [| reflexivity].
           intros [H | H]; [exact (NP H) |]. injection H as H.
           apply bearer_header in H as [_ H]. congruence.
    + right. left. split; [| reflexivity].
      intros [H | H]; [exact (NP H) | discriminate].
Qed.

(** With [MCP_AUTH_TOKEN] set, a request passes the middleware exactly
    when it goes to /health or its Authorization header is the text
    "Bearer " followed by the token.  Any other request is ended there:
    with 401 and the code -32001 when the header is missing, empty or does
    not start with "Bearer ", with 403 and the code -32002 when it carries
    another token; both are JSON-RPC errors under the id null. *)
Theorem auth_middleware_passes_exactly_the_bearer
  (token path : string) (authorization : option string) :
  (authorized token path authorization ->
   auth_middleware token path authorization fresh = (Normal Next, fresh))
  /\ (~ authorized token path authorization ->
      fst (auth_middleware token path authorization fresh) = Normal Ended)
  /\ (path <> "/health" ->
      authorization = None
      \/ (exists authHeader,
            authorization = Some authHeader /\ String.prefix "Bearer " authHeader = false) ->
      auth_middleware token path authorization fresh
      = (Normal Ended,
         {| statusCode := 401; headersSent := true;
            wire :=
              [(401,
                Some (VObj [("jsonrpc", VStr "2.0");
                            ("error",
                             VObj [("code", VNum (-32001));
                                   ("message",
                                    VStr "Missing or invalid authorization header")]);
                            ("id", VNull)]))] |}))
  /\ (path <> "/health" ->
      forall other,
        other <> token ->
        authorization = Some ("Bearer " ++ other) ->
        auth_middleware token path authorization fresh
        = (Normal Ended,
           {| statusCode := 403; headersSent := true;
              wire :=
                [(403,
                  Some (VObj [("jsonrpc", VStr "2.0");
                              ("error",
                               VObj [("code", VNum (-32002));
                                     ("message", VStr "Invalid token")]);
                              ("id", VNull)]))] |})).
Proof.
  split; [| split; [| split]].
  - intros H.
    destruct (auth_middleware_outcome token path authorization)
      as [[A E] | [[A E] | [A E]]]; try contradiction; exact E.
  - intros H.
    destruct (auth_middleware_outcome token path authorization)
      as [[A E] | [[A E] | [A E]]]; try contradiction; rewrite E; reflexivity.
  - intros NP H. apply String.eqb_neq in NP. unfold auth_middleware. rewrite NP.
    destruct H as [-> | (authHeader & -> & Hp)]; [reflexivity |].
    unfold startsWith. rewrite Hp. rewrite orb_true_r. reflexivity.
  - intros NP other Hother ->. apply String.eqb_neq in NP.
    unfold auth_middleware. rewrite NP.
    destruct (proj1 (bearer_header other ("Bearer " ++ other)) eq_refl) as [C1 C2].
    rewrite C1. apply String.eqb_eq in C2. rewrite C2.
    apply String.eqb_neq in Hother. rewrite Hother. reflexivity.
Qed.

(** The token followed by a space is not the token. *)
Lemma auth_middleware_passes_exactly_the_bearer_witness :
  auth_middleware "s3cret" "/mcp" (Some "Bearer s3cret") fresh = (Normal Next, fresh)
  /\ auth_middleware "s3cret" "/mcp" (Some "Bearer s3cret ") fresh
     = (Normal Ended,
        {| statusCode := 403; headersSent := true;
           wire :=
             [(403,
               Some (VObj [("jsonrpc", VStr "2.0");
                           ("error",
                            VObj [("code", VNum (-32002));
                                  ("message", VStr "Invalid token")]);
                           ("id", VNull)]))] |})
  /\ auth_middleware "s3cret" "/mcp" (Some "Basic s3cret") fresh
     = (Normal Ended,
        {| statusCode := 401; headersSent := true;
           wire :=
             [(401,
               Some (VObj [("jsonrpc", VStr "2.0");
                           ("error",
                            VObj [("code", VNum (-32001));
                                  ("message",
                                   VStr "Missing or invalid authorization header")]);
                           ("id", VNull)]))] |}).
Proof.
  destruct (auth_middleware_passes_exactly_the_bearer "s3cret" "/mcp" (Some "Bearer s3cret"))
    as (Hpass & _).
  destruct (auth_middleware_passes_exactly_the_bearer "s3cret" "/mcp"
              (Some "Bearer s3cret ")) as (_ & _ & _ & H403).
  destruct (auth_middleware_passes_exactly_the_bearer "s3cret" "/mcp" (Some "Basic s3cret"))
    as (_ & _ & H401 & _).
  split; [| split].
  - apply Hpass. right. reflexivity.
  - apply (H403 ltac:(discriminate) "s3cret "); [discriminate | reflexivity].
  - apply H401; [discriminate |]. right. exists "Basic s3cret". split; reflexivity.
Defined.

(** The stack in front of the route.  With a token configured, a POST to
    /mcp that does not carry it is ended with 401 or 403 before any
    transport exists, whatever its body; one that carries it, and every
    request when no token is configured, is handled by the route alone.
    A body the parser rejects is answered 500 by the error handler before
    the token is looked at. *)
Theorem app_post_mcp_guards_the_route
  (token : string) (cb : callbacks) (authorization : option string) (inb : value)
  (err_message : string) :
  token <> EmptyString ->
  (authorization <> Some ("Bearer " ++ token) ->
   exists code body,
     app_post_mcp (Some token) cb authorization (Parsed inb) arriving
     = (Normal Fulfilled, refused code body)
     /\ (code = 401 \/ code = 403))
  /\ app_post_mcp (Some token) cb (Some ("Bearer " ++ token)) (Parsed inb) arriving
     = post_mcp cb inb arriving
  /\ app_post_mcp None cb authorization (Parsed inb) arriving = post_mcp cb inb arriving
  /\ app_post_mcp (Some token) cb authorization (Unparseable err_message) arriving
     = (Normal Fulfilled,
        refused 500 (VObj [("error", VStr "Internal Server Error");
                           ("message", VStr err_message)])).
Proof.
  intros Ht. apply String.eqb_neq in Ht.
  split; [| split; [| split]].
  - intros Hh. unfold app_post_mcp, authentication. rewrite Ht.
    rewrite run_bind. unfold on_response, zoom. simpl response.
    destruct (auth_middleware_outcome token "/mcp" authorization)
      as [[A E] | [[A E] | [A E]]]; rewrite E.
    + exfalso. destruct A as [A | A]; [discriminate | exact (Hh A)].
    + eexists. eexists. split; [reflexivity | left; reflexivity].
    + eexists. eexists. split; [reflexivity | right; reflexivity].
  - unfold app_post_mcp, authentication. rewrite Ht.
    rewrite run_bind. unfold on_response, zoom. simpl response.
    destruct (auth_middleware_outcome token "/mcp" (Some ("Bearer " ++ token)))
      as [[A E] | [[A E] | [A E]]]; rewrite E; try reflexivity;
      exfalso; apply A; right; reflexivity.
  - reflexivity.
  - unfold app_post_mcp. rewrite run_bind, error_handler_500. reflexivity.
Qed.

(** A well-formed initialize request without credentials. *)
Lemma app_post_mcp_guards_the_route_witness :
  exists code body,
    app_post_mcp (Some "s3cret") (server_callbacks sample_env) None
      (Parsed (request (VNum 1) "initialize")) arriving
    = (Normal Fulfilled, refused code body)
    /\ (code = 401 \/ code = 403).
Proof.
  apply (app_post_mcp_guards_the_route "s3cret" (server_callbacks sample_env) None
           (request (VNum 1) "initialize") "Unexpected token").
  - discriminate.
  - discriminate.
Defined.

(** The middleware of the SSE server lets the same requests through and
    refuses the others with 401 or 403 and a plain [{error}] body. *)
Theorem sse_auth_middleware_passes_exactly_the_bearer
  (token path : string) (authorization : option string) :
  (authorized token path authorization ->
   sse_auth_middleware token path authorization fresh = (Normal Next, fresh))
  /\ (~ authorized token path authorization ->
      sse_auth_middleware token path authorization fresh
      = (Normal Ended,
         answered_with 401 (VObj [("error", VStr "Missing or invalid authorization header")]))
      \/ sse_auth_middleware token path authorization fresh
         = (Normal Ended, answered_with 403 (VObj [("error", VStr "Invalid token")]))).
Proof.
  unfold sse_auth_middleware, authorized.
  destruct (path =? "/health")%string eqn:P.
  - split; [reflexivity |]. intros H. exfalso. apply H. left. apply String.eqb_eq. exact P.
  - pose proof (not_health _ P) as NP.
    destruct authorization as [a |].
    + destruct ((a =? EmptyString)%string || negb (startsWith a "Bearer ")) eqn:C1.
      * split; [| intros _; left; reflexivity].
        intros [H | H]; [exfalso; exact (NP H) |]. injection H as H.
        apply bearer_header in H as [H _]. congruence.
      * destruct (substring_from 7 a =? token)%string eqn:C2.
        -- split; [reflexivity |]. intros H. exfalso. apply H. right. f_equal.
           apply bearer_header. split; assumption.
        -- split; [| intros _; right; reflexivity].
           intros [H | H]; [exfalso; exact (NP H) |]. injection H as H.
           apply bearer_header in H as [_ H]. congruence.
    + split; [| intros _; left; reflexivity].
      intros [H | H]; [exfalso; exact (NP H) | discriminate].
Qed.

(** A header in lower case is not a Bearer header. *)
Lemma sse_auth_middleware_passes_exactly_the_bearer_witness :
  sse_auth_middleware "s3cret" "/health" None fresh = (Normal Next, fresh)
  /\ (sse_auth_middleware "s3cret" "/sse" (Some "bearer s3cret") fresh
      = (Normal Ended,
         answered_with 401 (VObj [("error", VStr "Missing or invalid authorization header")]))
      \/ sse_auth_middleware "s3cret" "/sse" (Some "bearer s3cret") fresh
         = (Normal Ended, answered_with 403 (VObj [("error", VStr "Invalid token")]))).
Proof.
  split.
  - apply (sse_auth_middleware_passes_exactly_the_bearer "s3cret" "/health" None).
    left. reflexivity.
  - apply (sse_auth_middleware_passes_exactly_the_bearer "s3cret" "/sse"
             (Some "bearer s3cret")).
    intros [H | H]; discriminate.
Defined.

(* ===================================================================== *)
(** ** What [start] forwards and what it refuses *)
(* ===================================================================== *)

Lemma falsy_is_no_method (v : value) (name : string) :
  truthy v = false -> (name =? EmptyString)%string = false -> str_eq v name = false.
Proof.
  intros Hv Hn. destruct v; simpl in *; try reflexivity.
  destruct (s =? name)%string eqn:E; [| reflexivity].
  apply String.eqb_eq in E. subst s. rewrite Hn in Hv. discriminate.
Qed.

Lemma refuse_on_fresh (inb : value) :
  (sendError (-32600) "Invalid Request" VNull ;; ret Fulfilled)
    (new_HttpOnceTransport inb fresh)
  = (Normal Fulfilled,
     written inb 200 (Some (error_response VNull (-32600) "Invalid Request"))).
Proof. reflexivity. Qed.

(** [start()] answers a message it finds invalid by itself: a message whose
    method is missing or falsy, and a request (one with an id) whose
    jsonrpc member is missing or falsy and whose method is not answered
    inline.  The answer is Invalid Request under the id null, also when
    the message has an id, and the engine receives nothing. *)
Theorem start_refuses_invalid_messages (cb : callbacks) (props : list (string * value)) :
  let method := prop (VObj props) "method" in
  let refusal :=
    (Normal Fulfilled,
     written (VObj props) 200 (Some (error_response VNull (-32600) "Invalid Request"))) in
  (truthy method = false -> start cb (new_HttpOnceTransport (VObj props) fresh) = refusal)
  /\ (assoc props "id" <> None ->
      truthy (prop (VObj props) "jsonrpc") = false ->
      str_eq method "initialize" = false ->
      str_eq method "notifications/initialized" = false ->
      str_eq method "ping" = false ->
      start cb (new_HttpOnceTransport (VObj props) fresh) = refusal).
Proof.
  intros method refusal.
  assert (Shape : forall has_id : bool,
             str_eq method "initialize" = false ->
             str_eq method "notifications/initialized" = false ->
             str_eq method "ping" = false ->
             negb (negb has_id)
             && (negb (truthy (prop (VObj props) "jsonrpc")) || negb (truthy method))
             || negb has_id && negb (truthy method) = true ->
             (match assoc props "id" with Some _ => true | None => false end) = has_id ->
             start cb (new_HttpOnceTransport (VObj props) fresh) = refusal).
  { intros has_id M1 M2 M3 G Hh.
    unfold start, try_catch. rewrite run_get.
    cbn [inbound new_HttpOnceTransport].
    change (negb (truthy (VObj props)) || negb (typeof_object (VObj props))) with false.
    cbv iota. rewrite run_in_op_obj, Hh. cbv zeta.
    rewrite run_member by reflexivity. fold method. rewrite M1, M2, M3.
    rewrite run_member by reflexivity.
    destruct (negb (negb has_id)
              && (negb (truthy (prop (VObj props) "jsonrpc")) || negb (truthy method))).
    - rewrite refuse_on_fresh. reflexivity.
    - simpl in G. rewrite G. rewrite refuse_on_fresh. reflexivity. }
  split.
  - intros Hm.
    apply (Shape (match assoc props "id" with Some _ => true | None => false end));
      try (apply falsy_is_no_method; [exact Hm | reflexivity]); [| reflexivity].
    rewrite Hm. simpl. rewrite orb_true_r, andb_true_r.
    destruct (assoc props "id"); reflexivity.
  - intros Hid Hj M1 M2 M3.
    apply (Shape true); try assumption.
    + rewrite Hj. reflexivity.
    + destruct (assoc props "id"); [reflexivity | contradiction].
Qed.

(** A request with an id, a method, and no jsonrpc member. *)
Lemma start_refuses_invalid_messages_witness :
  start (server_callbacks sample_env)
    (new_HttpOnceTransport (VObj [("id", VNum 5); ("method", VStr "tools/list")]) fresh)
  = (Normal Fulfilled,
     written (VObj [("id", VNum 5); ("method", VStr "tools/list")]) 200
       (Some (error_response VNull (-32600) "Invalid Request"))).
Proof.
  apply (start_refuses_invalid_messages (server_callbacks sample_env)
           [("id", VNum 5); ("method", VStr "tools/list")]);
    try reflexivity.
  discriminate.
Defined.

(** A notification (no id) whose method is not answered inline is handed
    to the engine once.  If the engine says nothing, [start] stays pending
    with nothing written, and a [close()] then acknowledges with 204; if
    the engine closes the transport right away, [start] returns with the
    204.  Without an [onmessage] callback nobody receives the message and
    [start] stays pending. *)
Theorem start_forwards_notifications
  (cb : callbacks) (props : list (string * value)) (method : string) :
  assoc props "id" = None ->
  assoc props "method" = Some (VStr method) ->
  (method =? "initialize")%string = false ->
  (method =? "notifications/initialized")%string = false ->
  (method =? "ping")%string = false ->
  (method =? EmptyString)%string = false ->
  (forall handler,
     onmessage cb = Some handler ->
     handler (VObj props) = {| calls := []; raises := None |} ->
     start cb (new_HttpOnceTransport (VObj props) fresh)
     = (Normal Pending, awaiting (VObj props))
     /\ close cb (awaiting (VObj props)) = (Normal tt, acknowledged cb (VObj props)))
  /\ (forall handler,
        onmessage cb = Some handler ->
        handler (VObj props) = {| calls := [CallClose]; raises := None |} ->
        start cb (new_HttpOnceTransport (VObj props) fresh)
        = (Normal Fulfilled, acknowledged cb (VObj props)))
  /\ (onmessage cb = None ->
      start cb (new_HttpOnceTransport (VObj props) fresh)
      = (Normal Pending, new_HttpOnceTransport (VObj props) fresh)).
Proof.
  intros Hid Hm N1 N2 N3 N4.
  split; [| split].
  - intros handler Hon Hh. split.
    + unfold start. js_run. rewrite Hid, Hm. simpl. rewrite N1, N2, N3. simpl.
      rewrite N4. simpl. rewrite Hon, Hh. reflexivity.
    + rewrite run_close. simpl. unfold acknowledged. destruct (onclose cb); reflexivity.
  - intros handler Hon Hh.
    unfold start. js_run. rewrite Hid, Hm. simpl. rewrite N1, N2, N3. simpl.
    rewrite N4. simpl. rewrite Hon, Hh. simpl.
    unfold acknowledged. destruct (onclose cb); reflexivity.
  - intros Hon.
    unfold start. js_run. rewrite Hid, Hm. simpl. rewrite N1, N2, N3. simpl.
    rewrite N4. simpl. rewrite Hon. reflexivity.
Qed.

(** The notification notifications/cancelled, and an engine that stays
    silent. *)
Lemma start_forwards_notifications_witness :
  start {| onmessage := Some (fun _ => {| calls := []; raises := None |});
           onerror := true; onclose := true |}
    (new_HttpOnceTransport (notification "notifications/cancelled") fresh)
  = (Normal Pending, awaiting (notification "notifications/cancelled")).
Proof.
  destruct (start_forwards_notifications
              {| onmessage := Some (fun _ => {| calls := []; raises := None |});
                 onerror := true; onclose := true |}
              [("jsonrpc", VStr "2.0"); ("method", VStr "notifications/cancelled")]
              "notifications/cancelled" eq_refl eq_refl eq_refl eq_refl eq_refl eq_refl)
    as (H & _ & _).
  exact (proj1 (H (fun _ => {| calls := []; raises := None |}) eq_refl eq_refl)).
Defined.

(** A request the engine answers with one complete response -- a truthy
    jsonrpc member and an id that is not undefined -- gets exactly that
    response, unchanged, with HTTP 200, and [start] returns. *)
Theorem forwarded_answer_is_written_verbatim
  (cb : callbacks) (handler : value -> reaction)
  (props respProps : list (string * value)) (id jsonrpc rj ri : value) (method : string) :
  onmessage cb = Some handler ->
  assoc props "id" = Some id ->
  assoc props "method" = Some (VStr method) ->
  (method =? "initialize")%string = false ->
  (method =? "notifications/initialized")%string = false ->
  (method =? "ping")%string = false ->
  (method =? EmptyString)%string = false ->
  assoc props "jsonrpc" = Some jsonrpc ->
  truthy jsonrpc = true ->
  handler (VObj props) = {| calls := [CallSend (VObj respProps)]; raises := None |} ->
  assoc respProps "jsonrpc" = Some rj -> truthy rj = true ->
  assoc respProps "id" = Some ri -> is_undefined ri = false ->
  serializable (VObj respProps) = true ->
  start cb (new_HttpOnceTransport (VObj props) fresh)
  = (Normal Fulfilled, forwarded (VObj props) (VObj respProps)).
Proof. apply start_forwarded. Qed.

(** A tools/list request with the id "a" answered under the id "b": the
    transport does not compare the ids. *)
Lemma forwarded_answer_is_written_verbatim_witness :
  start {| onmessage :=
             Some (fun _ => {| calls := [CallSend (result_response (VStr "b") (VObj []))];
                               raises := None |});
           onerror := true; onclose := true |}
    (new_HttpOnceTransport (request (VStr "a") "tools/list") fresh)
  = (Normal Fulfilled,
     forwarded (request (VStr "a") "tools/list") (result_response (VStr "b") (VObj []))).
Proof.
  apply (forwarded_answer_is_written_verbatim
           {| onmessage :=
                Some (fun _ => {| calls := [CallSend (result_response (VStr "b") (VObj []))];
                                  raises := None |});
              onerror := true; onclose := true |}
           (fun _ => {| calls := [CallSend (result_response (VStr "b") (VObj []))];
                        raises := None |})
           [("jsonrpc", VStr "2.0"); ("id", VStr "a"); ("method", VStr "tools/list")]
           [("result", VObj []); ("jsonrpc", VStr "2.0"); ("id", VStr "b")]
           (VStr "a") (VStr "2.0") (VStr "2.0") (VStr "b") "tools/list"); reflexivity.
Defined.

(* ===================================================================== *)
(** ** The entity handlers and the tool dispatch *)
(* ===================================================================== *)

(** [executeQuery] in full. *)
Lemma run_executeQuery {S} (env : environment) (b : backend) (q : query)
  (variables : value) (s : S) :
  executeQuery env b q variables s
  = match post b "/graphql" q variables with
    | Throw e => (Throw e, s)
    | Normal response =>
        if is_nullish response then
          (Throw (JsError "TypeError" "Cannot read properties of null or undefined: data"), s)
        else if truthy (prop (prop response "data") "data") then
          (Normal (prop (prop response "data") "data"), s)
        else if serializable (prop response "data") then
          (Throw (new_McpError env InternalError
                    ("Invalid response format from OpenCTI: "
                     ++ JSON_stringify env (prop response "data"))), s)
        else (Throw (JsError "TypeError" "Do not know how to serialize a BigInt"), s)
    end.
Proof.
  unfold executeQuery. rewrite run_bind.
  destruct (post b "/graphql" q variables) as [response | e]; [| reflexivity].
  destruct (is_nullish response) eqn:Hn.
  - destruct response; try discriminate; reflexivity.
  - rewrite run_member by (exact Hn || reflexivity).
    rewrite run_opt_member by reflexivity.
    destruct (truthy (prop (prop response "data") "data")); [reflexivity |].
    cbv beta iota delta [negb]. unfold stringify. rewrite run_bind.
    destruct (serializable (prop response "data")); reflexivity.
Qed.

(** [executeQuery] hands on what the request throws, returns
    [response.data.data] when that is truthy, and throws an Internal error
    naming the response body otherwise: it never returns a falsy value. *)
Theorem executeQuery_returns_data_or_throws {S} (env : environment) (b : backend)
  (q : query) (variables : value) (s : S) :
  (forall e, post b "/graphql" q variables = Throw e ->
             executeQuery env b q variables s = (Throw e, s))
  /\ (forall response,
        post b "/graphql" q variables = Normal response ->
        is_nullish response = false ->
        truthy (prop (prop response "data") "data") = true ->
        executeQuery env b q variables s = (Normal (prop (prop response "data") "data"), s))
  /\ (forall response,
        post b "/graphql" q variables = Normal response ->
        is_nullish response = false ->
        truthy (prop (prop response "data") "data") = false ->
        serializable (prop response "data") = true ->
        executeQuery env b q variables s
        = (Throw (McpError InternalError
                    (McpError_message env InternalError
                       ("Invalid response format from OpenCTI: "
                        ++ JSON_stringify env (prop response "data")))), s))
  /\ (forall d s', executeQuery env b q variables s = (Normal d, s') -> truthy d = true).
Proof.
  rewrite run_executeQuery. split; [| split; [| split]].
  - intros e ->. reflexivity.
  - intros response -> -> ->. reflexivity.
  - intros response -> -> -> ->. reflexivity.
  - intros d s'. destruct (post b "/graphql" q variables) as [response | e]; [| discriminate].
    destruct (is_nullish response); [discriminate |].
    destruct (truthy (prop (prop response "data") "data")) eqn:T.
    + intros H. injection H as <- _. exact T.
    + destruct (serializable (prop response "data")); discriminate.
Qed.

(** A GraphQL answer that carries errors and no data. *)
Lemma executeQuery_returns_data_or_throws_witness :
  executeQuery sample_env
    {| post := fun _ _ _ =>
                 Normal (VObj [("data", VObj [("errors", VArr [VStr "denied"])])]);
       MalwareHandlers_getMalwareByName := fun _ => Normal VNull |}
    GET_SECTORS_QUERY (VObj []) tt
  = (Throw (McpError InternalError "Invalid response format from OpenCTI: {}"), tt).
Proof.
  destruct (executeQuery_returns_data_or_throws sample_env
              {| post := fun _ _ _ =>
                           Normal (VObj [("data", VObj [("errors", VArr [VStr "denied"])])]);
                 MalwareHandlers_getMalwareByName := fun _ => Normal VNull |}
              GET_SECTORS_QUERY (VObj []) tt) as (_ & _ & H & _).
  exact (H _ eq_refl eq_refl eq_refl eq_refl).
Defined.

(** Each handler with required arguments checks them before it queries:
    with the argument missing or falsy it throws InvalidParams, whatever
    the backend would answer. *)
Theorem handlers_require_their_arguments {S} (env : environment) (b : backend)
  (args : value) (s : S) :
  is_nullish args = false ->
  (truthy (prop args "name") = false ->
   getSectorByName env b args s
   = (Throw (new_McpError env InvalidParams "Sector name is required"), s))
  /\ (truthy (prop args "filters") = false ->
      getReportsByFilters env b args s
      = (Throw (new_McpError env InvalidParams "Filters are required"), s)
      /\ getCampaignsByFilters env b args s
         = (Throw (new_McpError env InvalidParams "Filters are required"), s))
  /\ (truthy (prop args "objectId") = false ->
      getIndicatorsByObjectAndType env b args s
      = (Throw (new_McpError env InvalidParams "Object ID is required"), s))
  /\ (truthy (prop args "objectId") = true ->
      truthy (prop args "indicatorType") = false ->
      getIndicatorsByObjectAndType env b args s
      = (Throw (new_McpError env InvalidParams "Indicator type is required"), s))
  /\ (truthy (prop args "field") = false ->
      getStixRelationshipsDistribution env b args s
      = (Throw (new_McpError env InvalidParams "Field is required"), s)
      /\ getStixRelationshipsDistributionWithDynamicFilters env b args s
         = (Throw (new_McpError env InvalidParams "Field is required"), s))
  /\ (truthy (prop args "field") = true ->
      truthy (prop args "operation") = false ->
      getStixRelationshipsDistribution env b args s
      = (Throw (new_McpError env InvalidParams "Operation is required"), s)
      /\ getStixRelationshipsDistributionWithDynamicFilters env b args s
         = (Throw (new_McpError env InvalidParams "Operation is required"), s)).
Proof.
  intros Hn.
  unfold getSectorByName, getReportsByFilters, getCampaignsByFilters,
    getIndicatorsByObjectAndType, getStixRelationshipsDistribution,
    getStixRelationshipsDistributionWithDynamicFilters.
  rewrite !run_member by (exact Hn || reflexivity).
  repeat split; intros; repeat match goal with H : truthy _ = _ |- _ => rewrite H; clear H end;
    reflexivity.
Qed.

(** An empty argument object. *)
Lemma handlers_require_their_arguments_witness :
  getCampaignsByFilters sample_env
    {| post := fun _ _ _ => Normal (VObj []);
       MalwareHandlers_getMalwareByName := fun _ => Normal VNull |}
    (VObj []) tt
  = (Throw (new_McpError sample_env InvalidParams "Filters are required"), tt).
Proof.
  destruct (handlers_require_their_arguments sample_env
              {| post := fun _ _ _ => Normal (VObj []);
                 MalwareHandlers_getMalwareByName := fun _ => Normal VNull |}
              (VObj []) tt eq_refl) as (_ & H & _).
  exact (proj2 (H eq_refl)).
Defined.

Lemma or_empty_not_nullish (v : value) : is_nullish (or_empty v) = false.
Proof.
  unfold or_empty. destruct (truthy v) eqn:T; [exact (truthy_not_nullish _ T) | reflexivity].
Qed.

(** The [CallToolRequestSchema] handler up to the call of the method. *)
Lemma call_tool_runs {S} (env : environment) (toolName : string) (arguments : value) (s : S) :
  serializable arguments = true ->
  call_tool env toolName arguments s
  = match TOOL_HANDLERS_at toolName with
    | Absent =>
        (Normal (error_result
                   ("MCP Error: "
                    ++ McpError_message env MethodNotFound ("Unknown tool: " ++ toolName))), s)
    | Inherited =>
        (Normal (error_result
                   "Unexpected error: this.requestHandler[handlerMethod] is not a function"), s)
    | Own handlerMethod =>
        match requestHandler env handlerMethod (or_empty arguments) with
        | Normal result =>
            if serializable result then
              (Normal (VObj [("content", text_content (JSON_stringify env result))]), s)
            else
              (Normal (error_result
                         "Unexpected error: Do not know how to serialize a BigInt"), s)
        | Throw e => handleError env e toolName s
        end
    end.
Proof.
  intros Hser. unfold call_tool, try_catch. rewrite run_stringify_for_log, Hser.
  destruct (TOOL_HANDLERS_at toolName) as [handlerMethod | |]; try reflexivity.
  rewrite run_bind.
  destruct (requestHandler env handlerMethod (or_empty arguments)) as [result | e];
    [| reflexivity].
  unfold stringify. rewrite run_bind. destruct (serializable result); reflexivity.
Qed.

Lemma sse_call_tool_runs {S} (env : environment) (toolName : string) (arguments : value)
  (s : S) :
  serializable arguments = true ->
  sse_call_tool env toolName arguments s
  = match TOOL_HANDLERS_at toolName with
    | Absent =>
        (Throw (McpError MethodNotFound
                  (McpError_message env MethodNotFound ("Unknown tool: " ++ toolName))), s)
    | Inherited =>
        (Throw (JsError "TypeError" "this.requestHandler[handlerMethod] is not a function"), s)
    | Own handlerMethod =>
        match requestHandler env handlerMethod (or_empty arguments) with
        | Normal result =>
            if serializable result then
              (Normal (VObj [("content", text_content (JSON_stringify env result))]), s)
            else (Throw (JsError "TypeError" "Do not know how to serialize a BigInt"), s)
        | Throw e => sse_handleError env e toolName s
        end
    end.
Proof.
  intros Hser. unfold sse_call_tool, try_catch. rewrite run_stringify_for_log, Hser.
  destruct (TOOL_HANDLERS_at toolName) as [handlerMethod | |]; try reflexivity.
  rewrite run_bind.
  destruct (requestHandler env handlerMethod (or_empty arguments)) as [result | e];
    [| reflexivity].
  unfold stringify. rewrite run_bind. destruct (serializable result); reflexivity.
Qed.

(** [handleError] of the one-shot server returns a result with
    [isError: true] whenever the body of an Axios error can be written as
    JSON. *)
Lemma handleError_returns {S} (env : environment) (e : exn) (toolName : string) (s : S) :
  (forall data message, e = AxiosError data message -> serializable data = true) ->
  exists text, handleError env e toolName s = (Normal (error_result text), s).
Proof.
  intros Hd. destruct e as [name message | code message | data message]; simpl.
  - eexists. reflexivity.
  - eexists. reflexivity.
  - unfold stringify. rewrite run_bind.
    destruct (truthy data); [rewrite (Hd data message eq_refl) |]; eexists; reflexivity.
Qed.

(** The tools/call handler of the one-shot server never throws: whatever
    the name, the arguments and the outcome of the method, it returns a
    result, which is the method's value as a text or carries [isError]. *)
Theorem call_tool_never_throws {S} (env : environment) (toolName : string)
  (arguments : value) (s : S) :
  (forall handlerMethod data message,
     requestHandler env handlerMethod (or_empty arguments) = Throw (AxiosError data message) ->
     serializable data = true) ->
  exists r,
    call_tool env toolName arguments s = (Normal r, s)
    /\ ((exists text, r = error_result text)
        \/ (exists handlerMethod result,
              TOOL_HANDLERS_at toolName = Own handlerMethod
              /\ serializable arguments = true
              /\ requestHandler env handlerMethod (or_empty arguments) = Normal result
              /\ r = VObj [("content", text_content (JSON_stringify env result))])).
Proof.
  intros Hd. destruct (serializable arguments) eqn:Hser.
  - rewrite (call_tool_runs env toolName arguments s Hser).
    destruct (TOOL_HANDLERS_at toolName) as [handlerMethod | |] eqn:Hat.
    + destruct (requestHandler env handlerMethod (or_empty arguments)) as [result | e] eqn:Hr.
      * destruct (serializable result).
        -- eexists. split; [reflexivity |]. right. exists handlerMethod, result.
           repeat split; assumption || reflexivity.
        -- eexists. split; [reflexivity |]. left. eexists. reflexivity.
      * destruct (handleError_returns (S := S) env e toolName s) as [text Ht].
        { intros data message ->. exact (Hd _ _ _ Hr). }
        exists (error_result text). split; [exact Ht |]. left. exists text. reflexivity.
    + eexists. split; [reflexivity |]. left. eexists. reflexivity.
    + eexists. split; [reflexivity |]. left. eexists. reflexivity.
  - unfold call_tool, try_catch. rewrite run_stringify_for_log, Hser.
    eexists. split; [reflexivity |]. left. eexists. reflexivity.
Qed.

(** A registered tool whose method throws a plain error. *)
Lemma call_tool_never_throws_witness :
  exists r,
    call_tool
      {| JSON_stringify := fun _ => "{}";
         McpError_message := fun _ m => m;
         requestHandler := fun _ _ => Throw (JsError "Error" "socket hang up");
         ALL_TOOLS := [] |}
      "list_sectors" VUndefined tt = (Normal r, tt).
Proof.
  destruct (call_tool_never_throws
              {| JSON_stringify := fun _ => "{}";
                 McpError_message := fun _ m => m;
                 requestHandler := fun _ _ => Throw (JsError "Error" "socket hang up");
                 ALL_TOOLS := [] |}
              "list_sectors" VUndefined tt) as (r & H & _).
  - intros handlerMethod data message H. discriminate H.
  - exists r. exact H.
Defined.

(** What a required-argument check makes of a tools/call. *)
Ltac missing_argument Hser :=
  rewrite call_tool_runs by exact Hser;
  match goal with
  | |- context [TOOL_HANDLERS_at ?n] =>
      let h := eval vm_compute in (TOOL_HANDLERS_at n) in
      change (TOOL_HANDLERS_at n) with h
  end;
  cbv beta iota;
  unfold with_backend at 1; cbn [requestHandler];
  match goal with
  | |- context [RequestHandler ?base ?b ?m ?a tt] =>
      let r := eval cbv beta iota delta [RequestHandler String.eqb Ascii.eqb Bool.eqb] in
                 (RequestHandler (S := unit) base b m a tt) in
      change (RequestHandler base b m a tt) with r
  end;
  unfold getSectorByName, getReportsByFilters, getCampaignsByFilters,
    getIndicatorsByObjectAndType, getStixRelationshipsDistribution,
    getStixRelationshipsDistributionWithDynamicFilters;
  rewrite run_member by (apply or_empty_not_nullish || reflexivity);
  repeat match goal with H : truthy _ = _ |- _ => rewrite H; clear H end;
  reflexivity.

(** Through the whole dispatch of the one-shot server: a call of a
    registered tool without a required argument ends as a result with
    [isError: true] and the text of the InvalidParams error, for every
    backend. *)
Theorem call_tool_reports_missing_arguments {S} (base : environment) (b : backend)
  (arguments : value) (s : S) :
  serializable arguments = true ->
  let args := or_empty arguments in
  let refused toolName message :=
    call_tool (with_backend base b) toolName arguments s
    = (Normal (error_result ("MCP Error: " ++ McpError_message base InvalidParams message)), s)
  in
  (truthy (prop args "name") = false ->
   refused "get_sector_by_name" "Sector name is required")
  /\ (truthy (prop args "filters") = false ->
      refused "get_reports_by_filters" "Filters are required"
      /\ refused "get_campaigns_by_filters" "Filters are required")
  /\ (truthy (prop args "objectId") = false ->
      refused "get_indicators_by_object_and_type" "Object ID is required")
  /\ (truthy (prop args "objectId") = true ->
      truthy (prop args "indicatorType") = false ->
      refused "get_indicators_by_object_and_type" "Indicator type is required")
  /\ (truthy (prop args "field") = false ->
      refused "get_stix_relationships_distribution" "Field is required"
      /\ refused "get_stix_relationships_distribution_with_dynamic_filters"
           "Field is required")
  /\ (truthy (prop args "field") = true ->
      truthy (prop args "operation") = false ->
      refused "get_stix_relationships_distribution" "Operation is required"
      /\ refused "get_stix_relationships_distribution_with_dynamic_filters"
           "Operation is required").
Proof.
  intros Hser args refused. subst args refused. cbv beta.
  repeat split; intros; missing_argument Hser.
Qed.

(** A call of get_campaigns_by_filters without arguments. *)
Lemma call_tool_reports_missing_arguments_witness :
  call_tool
    (with_backend sample_env
       {| post := fun _ _ _ => Normal (VObj []);
          MalwareHandlers_getMalwareByName := fun _ => Normal VNull |})
    "get_campaigns_by_filters" VUndefined tt
  = (Normal (error_result "MCP Error: Filters are required"), tt).
Proof.
  destruct (call_tool_reports_missing_arguments sample_env
              {| post := fun _ _ _ => Normal (VObj []);
                 MalwareHandlers_getMalwareByName := fun _ => Normal VNull |}
              VUndefined tt eq_refl) as (_ & H & _).
  exact (proj2 (H eq_refl)).
Defined.

(** The four listing tools reach [executeQuery]: the sector and report
    ones whatever the arguments, the geography ones when their log line
    can print [args.search]. *)
Lemma listing_tool_runs {S} (base : environment) (b : backend) (arguments : value)
  (toolName : string) (q : query) (variables : value) (s : S) :
  serializable arguments = true ->
  (toolName = "list_sectors" /\ q = GET_LIST_AVAILABLE_SECTORS_QUERY /\ variables = VObj [])
  \/ (toolName = "get_report_types" /\ q = GET_REPORTS_TYPES_QUERY /\ variables = VObj [])
  \/ (toolName = "list_countries" /\ q = GET_LIST_AVAILABLE_COUNTRIES_QUERY
      /\ variables = VObj [("search", or_null (prop (or_empty arguments) "search"))]
      /\ string_convertible (prop (or_empty arguments) "search") = true)
  \/ (toolName = "list_regions" /\ q = GET_LIST_AVAILABLE_REGIONS_QUERY
      /\ variables = VObj [("search", or_null (prop (or_empty arguments) "search"))]
      /\ string_convertible (prop (or_empty arguments) "search") = true) ->
  call_tool (with_backend base b) toolName arguments s
  = match fst (executeQuery base b q variables tt) with
    | Normal result =>
        if serializable result then
          (Normal (VObj [("content", text_content (JSON_stringify base result))]), s)
        else
          (Normal (error_result "Unexpected error: Do not know how to serialize a BigInt"), s)
    | Throw e => handleError (with_backend base b) e toolName s
    end.
Proof.
  intros Hser Htool. rewrite call_tool_runs by exact Hser.
  destruct Htool
    as [(-> & -> & ->) | [(-> & -> & ->) | [(-> & -> & -> & Hc) | (-> & -> & -> & Hc)]]].
  - reflexivity.
  - reflexivity.
  - change (TOOL_HANDLERS_at "list_countries") with (Own "listCountries"). cbv beta iota.
    change (requestHandler (with_backend base b) "listCountries" (or_empty arguments))
      with (fst (listCountries base b (or_empty arguments) tt)).
    unfold listCountries.
    rewrite run_member by (apply or_empty_not_nullish || reflexivity).
    unfold to_string_for_log. rewrite Hc.
    destruct (truthy (prop (or_empty arguments) "search")); reflexivity.
  - change (TOOL_HANDLERS_at "list_regions") with (Own "listRegions"). cbv beta iota.
    change (requestHandler (with_backend base b) "listRegions" (or_empty arguments))
      with (fst (listRegions base b (or_empty arguments) tt)).
    unfold listRegions.
    rewrite run_member by (apply or_empty_not_nullish || reflexivity).
    unfold to_string_for_log. rewrite Hc.
    destruct (truthy (prop (or_empty arguments) "search")); reflexivity.
Qed.

(** A geography tool whose [search] argument cannot be printed throws in
    its log line, before the query. *)
Lemma geography_tool_unprintable {S} (base : environment) (b : backend) (arguments : value)
  (toolName : string) (s : S) :
  serializable arguments = true ->
  toolName = "list_countries" \/ toolName = "list_regions" ->
  string_convertible (prop (or_empty arguments) "search") = false ->
  call_tool (with_backend base b) toolName arguments s
  = (Normal (error_result "Unexpected error: Cannot convert object to primitive value"), s).
Proof.
  intros Hser Htool Hc. rewrite call_tool_runs by exact Hser.
  assert (Ht : truthy (prop (or_empty arguments) "search") = true).
  { destruct (prop (or_empty arguments) "search"); try discriminate Hc; reflexivity. }
  destruct Htool as [-> | ->].
  - change (TOOL_HANDLERS_at "list_countries") with (Own "listCountries"). cbv beta iota.
    change (requestHandler (with_backend base b) "listCountries" (or_empty arguments))
      with (fst (listCountries base b (or_empty arguments) tt)).
    unfold listCountries.
    rewrite run_member by (apply or_empty_not_nullish || reflexivity).
    unfold to_string_for_log. rewrite Ht, Hc. reflexivity.
  - change (TOOL_HANDLERS_at "list_regions") with (Own "listRegions"). cbv beta iota.
    change (requestHandler (with_backend base b) "listRegions" (or_empty arguments))
      with (fst (listRegions base b (or_empty arguments) tt)).
    unfold listRegions.
    rewrite run_member by (apply or_empty_not_nullish || reflexivity).
    unfold to_string_for_log. rewrite Ht, Hc. reflexivity.
Qed.

(** A listing tool (list_sectors, get_report_types, and list_countries and
    list_regions when their log line can print the search argument)
    reports what the OpenCTI instance answers: the data as a text when the
    answer has data, an MCP Internal error naming the body when it has
    none, and the Axios error's body or message when the request fails;
    none of these is thrown.  A geography tool whose search argument
    cannot be converted to a string -- an object with a member named
    toString, or an array holding one -- reports that TypeError instead and
    sends no query. *)
Theorem listing_tools_report_the_upstream {S} (base : environment) (b : backend)
  (arguments : value) (toolName : string) (q : query) (variables : value) (s : S) :
  serializable arguments = true ->
  let returns r := call_tool (with_backend base b) toolName arguments s = (Normal r, s) in
  ((toolName = "list_sectors" /\ q = GET_LIST_AVAILABLE_SECTORS_QUERY /\ variables = VObj [])
   \/ (toolName = "get_report_types" /\ q = GET_REPORTS_TYPES_QUERY /\ variables = VObj [])
   \/ (toolName = "list_countries" /\ q = GET_LIST_AVAILABLE_COUNTRIES_QUERY
       /\ variables = VObj [("search", or_null (prop (or_empty arguments) "search"))]
       /\ string_convertible (prop (or_empty arguments) "search") = true)
   \/ (toolName = "list_regions" /\ q = GET_LIST_AVAILABLE_REGIONS_QUERY
       /\ variables = VObj [("search", or_null (prop (or_empty arguments) "search"))]
       /\ string_convertible (prop (or_empty arguments) "search") = true) ->
   (forall response,
      post b "/graphql" q variables = Normal response ->
      is_nullish response = false ->
      (truthy (prop (prop response "data") "data") = true ->
       serializable (prop (prop response "data") "data") = true ->
       returns (VObj [("content",
                       VArr [VObj [("type", VStr "text");
                                   ("text",
                                    VStr (JSON_stringify base
                                            (prop (prop response "data") "data")))]])]))
      /\ (truthy (prop (prop response "data") "data") = false ->
          serializable (prop response "data") = true ->
          returns (VObj [("content",
                          VArr [VObj [("type", VStr "text");
                                      ("text",
                                       VStr ("MCP Error: "
                                             ++ McpError_message base InternalError
                                                  ("Invalid response format from OpenCTI: "
                                                   ++ JSON_stringify base
                                                        (prop response "data"))))]]);
                         ("isError", VBool true)])))
   /\ (forall data message,
         post b "/graphql" q variables = Throw (AxiosError data message) ->
         (truthy data = true -> serializable data = true ->
          returns (VObj [("content",
                          VArr [VObj [("type", VStr "text");
                                      ("text",
                                       VStr ("OpenCTI API error: "
                                             ++ JSON_stringify base data))]]);
                         ("isError", VBool true)]))
         /\ (truthy data = false ->
             returns (VObj [("content",
                             VArr [VObj [("type", VStr "text");
                                         ("text", VStr ("OpenCTI API error: " ++ message))]]);
                            ("isError", VBool true)]))))
  /\ (toolName = "list_countries" \/ toolName = "list_regions" ->
      string_convertible (prop (or_empty arguments) "search") = false ->
      returns (VObj [("content",
                      VArr [VObj [("type", VStr "text");
                                  ("text",
                                   VStr "Unexpected error: Cannot convert object to primitive value")]]);
                     ("isError", VBool true)])).
Proof.
  intros Hser returns. subst returns. cbv beta. split.
  - intros Htool.
    rewrite (listing_tool_runs base b arguments toolName q variables s Hser Htool).
    rewrite run_executeQuery. split.
    + intros response -> ->. split.
      * intros -> Hd. cbn [fst]. rewrite Hd. reflexivity.
      * intros -> ->. reflexivity.
    + intros data message ->. cbn [fst]. unfold handleError, stringify. rewrite run_bind.
      split.
      * intros -> ->. reflexivity.
      * intros ->. reflexivity.
  - intros Htool Hc.
    exact (geography_tool_unprintable base b arguments toolName s Hser Htool Hc).
Qed.

(** list_countries with a search text, on an instance that answers with
    one country. *)
Lemma listing_tools_report_the_upstream_witness :
  call_tool
    (with_backend sample_env
       {| post := fun _ _ variables =>
                    Normal (VObj [("data", VObj [("data", VObj [("countries", variables)])])]);
          MalwareHandlers_getMalwareByName := fun _ => Normal VNull |})
    "list_countries" (VObj [("search", VStr "Fra")]) tt
  = (Normal (VObj [("content", text_content "{}")]), tt).
Proof.
  destruct (listing_tools_report_the_upstream sample_env
              {| post := fun _ _ variables =>
                           Normal (VObj [("data",
                                          VObj [("data", VObj [("countries", variables)])])]);
                 MalwareHandlers_getMalwareByName := fun _ => Normal VNull |}
              (VObj [("search", VStr "Fra")]) "list_countries"
              GET_LIST_AVAILABLE_COUNTRIES_QUERY
              (VObj [("search", VStr "Fra")]) tt eq_refl) as (H & _).
  destruct H as (H & _).
  - right. right. left. repeat split.
  - exact (proj1 (H _ eq_refl eq_refl) eq_refl eq_refl).
Defined.

(** The SSE and stdio servers answer a tools/call differently from the
    one-shot server: an unknown tool and an [McpError] of the method are
    thrown to the engine, where the one-shot server returns a result with
    [isError: true]; only an Axios error becomes a result, with its body
    as the text unless the body is undefined. *)
Theorem sse_call_tool_throws_what_is_not_axios {S} (env : environment) (toolName : string)
  (arguments : value) (s : S) :
  serializable arguments = true ->
  (TOOL_HANDLERS_at toolName = Absent ->
   sse_call_tool env toolName arguments s
   = (Throw (McpError MethodNotFound
               (McpError_message env MethodNotFound ("Unknown tool: " ++ toolName))), s)
   /\ call_tool env toolName arguments s
      = (Normal (error_result
                   ("MCP Error: "
                    ++ McpError_message env MethodNotFound ("Unknown tool: " ++ toolName))), s))
  /\ (forall handlerMethod,
        TOOL_HANDLERS_at toolName = Own handlerMethod ->
        (forall code message,
           requestHandler env handlerMethod (or_empty arguments)
           = Throw (McpError code message) ->
           sse_call_tool env toolName arguments s = (Throw (McpError code message), s)
           /\ call_tool env toolName arguments s
              = (Normal (error_result ("MCP Error: " ++ message)), s))
        /\ (forall name message,
              requestHandler env handlerMethod (or_empty arguments)
              = Throw (JsError name message) ->
              sse_call_tool env toolName arguments s = (Throw (JsError name message), s)
              /\ call_tool env toolName arguments s
                 = (Normal (error_result ("Unexpected error: " ++ message)), s))
        /\ (forall data message,
              requestHandler env handlerMethod (or_empty arguments)
              = Throw (AxiosError data message) ->
              serializable data = true ->
              sse_call_tool env toolName arguments s
              = (Normal (error_result
                           ("OpenCTI API error: "
                            ++ (if is_undefined data then message
                                else JSON_stringify env data))), s))).
Proof.
  intros Hser.
  rewrite (sse_call_tool_runs env toolName arguments s Hser).
  rewrite (call_tool_runs env toolName arguments s Hser).
  split.
  - intros ->. split; reflexivity.
  - intros handlerMethod ->. split; [| split].
    + intros code message ->. split; reflexivity.
    + intros name message ->. split; reflexivity.
    + intros data message -> Hd. unfold sse_handleError, stringify. rewrite run_bind.
      destruct (is_undefined data); [reflexivity |]. rewrite Hd. reflexivity.
Qed.

(** A name that no table knows, on the SSE server. *)
Lemma sse_call_tool_throws_what_is_not_axios_witness :
  sse_call_tool sample_env "nonexistent_tool" (VObj []) tt
  = (Throw (McpError MethodNotFound "Unknown tool: nonexistent_tool"), tt).
Proof.
  destruct (sse_call_tool_throws_what_is_not_axios sample_env "nonexistent_tool"
              (VObj []) tt eq_refl) as (H & _).
  exact (proj1 (H eq_refl)).
Defined.

(** The tables agree one way only: every name in [TOOL_HANDLERS] is
    declared in [TOOL_DEFINITIONS] and maps to a method that
    [RequestHandler] defines, while the declared tool
    get_indicators_by_campaign, alone, has no handler and is answered as
    an unknown tool. *)
Theorem registered_tools_are_declared_and_bound :
  (forall toolName handlerMethod,
     TOOL_HANDLERS_at toolName = Own handlerMethod ->
     In toolName TOOL_DEFINITIONS_names /\ In handlerMethod RequestHandler_methods)
  /\ (forall toolName,
        In toolName TOOL_DEFINITIONS_names ->
        (registered toolName = false <-> toolName = "get_indicators_by_campaign"))
  /\ (forall (env : environment) (arguments : value) (s : unit),
        serializable arguments = true ->
        call_tool env "get_indicators_by_campaign" arguments s
        = (Normal (error_result
                     ("MCP Error: "
                      ++ McpError_message env MethodNotFound
                           "Unknown tool: get_indicators_by_campaign")), s)).
Proof.
  split; [| split].
  - intros toolName handlerMethod. unfold TOOL_HANDLERS_at, TOOL_HANDLERS.
    cbn [own_handler].
    repeat match goal with
           | |- context [String.eqb ?a toolName] =>
               destruct (String.eqb_spec a toolName) as [<- | _];
               [intros H; injection H as <-; split;
                [unfold TOOL_DEFINITIONS_names | unfold RequestHandler_methods];
                cbn [In]; repeat (first [left; reflexivity | right]) |]
           end.
    destruct (existsb _ Object_prototype); discriminate.
  - intros toolName Hin. unfold TOOL_DEFINITIONS_names in Hin. cbn [In] in Hin.
    repeat (destruct Hin as [<- | Hin]; [split; [intros H; vm_compute in H; try discriminate H; reflexivity | intros H; try discriminate H; reflexivity] |]).
    destruct Hin.
  - intros env arguments s Hser. rewrite call_tool_runs by exact Hser. reflexivity.
Qed.

(** The declared tool without a handler, called with an empty argument
    object. *)
Lemma registered_tools_are_declared_and_bound_witness :
  call_tool sample_env "get_indicators_by_campaign" (VObj []) tt
  = (Normal (error_result "MCP Error: Unknown tool: get_indicators_by_campaign"), tt).
Proof.
  destruct registered_tools_are_declared_and_bound as (_ & _ & H).
  exact (H sample_env (VObj []) tt eq_refl).
Defined.
